(** * kenya-agri-farmwise: the prediction endpoint, the dataset upload and
      the training schedule

    A shallow embedding of
    - [functions/predict_disease/main.py]: the cold-start bootstrap, the
      [/health] and [/predict] handlers;
    - [ml/prepare_dataset.py]: [upload_to_gcs] and [create_dataset_csv];
    - [ml/train_model.py]: the two [model.fit] calls of [train_model] and
      the epochs they run under [EarlyStopping].

    Conventions.  Python exceptions are values of [exn]; a computation that
    may raise has type [result A].  Python [float]s are embedded as exact
    rationals ([Q]): the rounding error of binary floating point is outside
    the embedding, the two-decimal [round] of the handler is inside it.
    Calls that leave the repository (Flask's [get_json], the imaging
    pipeline, Keras, the storage client) appear through their outcome. *)

From Stdlib Require Import ZArith QArith Qround String Ascii List Lia Lqa Bool.
From stdpp Require Import base option list strings gmap fin_maps.

Local Open Scope string_scope.
Local Open Scope list_scope.

(** ** Python string primitives *)

Module PyStr.

(** [s[n:]] *)
Fixpoint drop (n : nat) (s : string) : string :=
  match n, s with
  | O, _ => s
  | S _, EmptyString => EmptyString
  | S n', String _ s' => drop n' s'
  end.

(** [s[:n]] *)
Fixpoint take (n : nat) (s : string) : string :=
  match n, s with
  | O, _ => EmptyString
  | S _, EmptyString => EmptyString
  | S n', String c s' => String c (take n' s')
  end.

(** [s.startswith(p)] *)
Fixpoint startswith (p s : string) : bool :=
  match p, s with
  | EmptyString, _ => true
  | String _ _, EmptyString => false
  | String a p', String b s' => if Ascii.eqb a b then startswith p' s' else false
  end.

(** [s.find(sub)], with [None] for Python's [-1]: the index of the
    leftmost occurrence. *)
Fixpoint find (sub s : string) : option nat :=
  if startswith sub s then Some O
  else match s with
       | EmptyString => None
       | String _ s' => option_map S (find sub s')
       end.

(** [sub in s] *)
Definition contains (sub s : string) : bool :=
  match find sub s with Some _ => true | None => false end.

(** [s.endswith(suffix)] *)
Definition endswith (suffix s : string) : bool :=
  (String.length suffix <=? String.length s)%nat
  && String.eqb (drop (String.length s - String.length suffix) s) suffix.

(** [s.endswith(tuple_of_suffixes)] *)
Definition endswith_any (suffixes : list string) (s : string) : bool :=
  existsb (fun suffix => endswith suffix s) suffixes.

(** [s.split(sep)] for a non-empty [sep], cutting at the leftmost
    occurrences from left to right.  The fuel counts the cuts still
    allowed; [split] below gives more than any string can use. *)
Fixpoint split_fuel (fuel : nat) (sep s : string) : list string :=
  match fuel with
  | O => [s]
  | S fuel' =>
      match find sep s with
      | None => [s]
      | Some i => take i s :: split_fuel fuel' sep (drop (i + String.length sep) s)
      end
  end.

Definition split (sep s : string) : list string :=
  split_fuel (S (String.length s)) sep s.

(** [s.replace(old, new)] for a non-empty [old]: every non-overlapping
    occurrence, leftmost first. *)
Fixpoint replace_fuel (fuel : nat) (old new s : string) : string :=
  match fuel with
  | O => s
  | S fuel' =>
      match find old s with
      | None => s
      | Some i =>
          take i s +:+ new +:+ replace_fuel fuel' old new (drop (i + String.length old) s)
      end
  end.

Definition replace (old new s : string) : string :=
  replace_fuel (S (String.length s)) old new s.

(** [s[-1]], when there is one. *)
Fixpoint last_char (s : string) : option ascii :=
  match s with
  | EmptyString => None
  | String c EmptyString => Some c
  | String _ s' => last_char s'
  end.

(** [sep.join(parts)] *)
Fixpoint join (sep : string) (parts : list string) : string :=
  match parts with
  | [] => ""
  | [p] => p
  | p :: rest => p +:+ sep +:+ join sep rest
  end.

End PyStr.

(** ** Exceptions and JSON values *)

(** An instance of Python's [Exception]: its class name and [str(e)]. *)
Record exn := Exn { exn_class : string; str : string }.

Inductive result (A : Type) : Type :=
| Ok (a : A)
| Raise (e : exn).
Arguments Ok {A} a.
Arguments Raise {A} e.

#[global] Instance result_ret : MRet result := fun _ a => Ok a.
#[global] Instance result_bind : MBind result := fun _ _ f m =>
  match m with
  | Ok a => f a
  | Raise e => Raise e
  end.

(** What [json.loads] produces: [None], [bool], [int], [float], [str],
    [list] and [dict] (an insertion-ordered table with distinct keys). *)
#[warnings="-register-all"]
Inductive json : Type :=
| JNull
| JBool (b : bool)
| JInt (n : Z)
| JFloat (q : Q)
| JStr (s : string)
| JArr (items : list json)
| JObj (fields : list (string * json)).

Abbreviation dict := (list (string * json)).

(** [d.get(key)] on a dict, [None] when the key is absent. *)
Fixpoint dict_lookup (key : string) (d : dict) : option json :=
  match d with
  | [] => None
  | (k, v) :: d' => if String.eqb k key then Some v else dict_lookup key d'
  end.

(** [d.get(key, fallback)] *)
Definition dict_get (d : dict) (key : string) (fallback : json) : json :=
  match dict_lookup key d with
  | Some v => v
  | None => fallback
  end.

(** Python truth value: [bool(j)]. *)
Definition truthy (j : json) : bool :=
  match j with
  | JNull => false
  | JBool b => b
  | JInt n => negb (n =? 0)%Z
  | JFloat q => negb (Qeq_bool q 0)
  | JStr s => negb (String.eqb s "")
  | JArr items => match items with [] => false | _ => true end
  | JObj fields => match fields with [] => false | _ => true end
  end.

Definition TypeError (msg : string) : exn := Exn "TypeError" msg.
Definition IndexError (msg : string) : exn := Exn "IndexError" msg.
Definition ValueError (msg : string) : exn := Exn "ValueError" msg.
Definition KeyError (key : string) : exn := Exn "KeyError" ("'" +:+ key +:+ "'").

(** [key in j] for a [str] key: key membership on a dict, element
    equality on a list, substring on a str; the other values are not
    containers and the operator raises (messages as CPython 3.8 to 3.13
    prints them). *)
Definition py_in (key : string) (j : json) : result bool :=
  match j with
  | JObj fields =>
      Ok (match dict_lookup key fields with Some _ => true | None => false end)
  | JArr items =>
      Ok (existsb (fun x => match x with JStr s => String.eqb s key | _ => false end) items)
  | JStr s => Ok (PyStr.contains key s)
  | JNull => Raise (TypeError "argument of type 'NoneType' is not iterable")
  | JBool _ => Raise (TypeError "argument of type 'bool' is not iterable")
  | JInt _ => Raise (TypeError "argument of type 'int' is not iterable")
  | JFloat _ => Raise (TypeError "argument of type 'float' is not iterable")
  end.

(** [j[key]] for a [str] key. *)
Definition py_getitem (j : json) (key : string) : result json :=
  match j with
  | JObj fields =>
      match dict_lookup key fields with
      | Some v => Ok v
      | None => Raise (KeyError key)
      end
  | JArr _ => Raise (TypeError "list indices must be integers or slices, not str")
  | JStr _ => Raise (TypeError "string indices must be integers")
  | JNull => Raise (TypeError "'NoneType' object is not subscriptable")
  | JBool _ => Raise (TypeError "'bool' object is not subscriptable")
  | JInt _ => Raise (TypeError "'int' object is not subscriptable")
  | JFloat _ => Raise (TypeError "'float' object is not subscriptable")
  end.

(** ** Numbers *)

(** Round to the nearest integer, ties to the even one. *)
Definition round_half_even (x : Q) : Z :=
  let f := Qfloor x in
  match (x - inject_Z f ?= 1 # 2)%Q with
  | Lt => f
  | Gt => (f + 1)%Z
  | Eq => if Z.even f then f else (f + 1)%Z
  end.

(** [round(x, 2)] *)
Definition round2 (x : Q) : Q := round_half_even (x * 100)%Q # 100.

(** [np.argmax(row)]: the first index holding the maximum; [ValueError]
    on an empty row. *)
Fixpoint argmax_from (best_i : nat) (best : Q) (i : nat) (rest : list Q) : nat :=
  match rest with
  | [] => best_i
  | x :: rest' =>
      if Qle_bool x best then argmax_from best_i best (S i) rest'
      else argmax_from i x (S i) rest'
  end.

Definition argmax (row : list Q) : result nat :=
  match row with
  | [] => Raise (ValueError "attempt to get argmax of an empty sequence")
  | x :: rest => Ok (argmax_from 0 x 1 rest)
  end.

(** [seq[i]] on a list, [IndexError] when out of range. *)
Definition py_index {A} (seq : list A) (i : nat) : result A :=
  match seq !! i with
  | Some a => Ok a
  | None => Raise (IndexError "list index out of range")
  end.

(** ** The random module

    The two draws one request makes: the value [random.choice] gets from
    [_randbelow] (reduced below the length) and the 53 random bits behind
    [random.random()]. *)
Record rng := { randbelow_draw : nat; random_bits : Z }.

(** [random.random()]: a multiple of 2^-53 in [0, 1). *)
Definition random_random (g : rng) : Q :=
  Qmake (random_bits g mod 2 ^ 53)%Z (2 ^ 53)%positive.

(** [random.uniform(a, b)] is [a + (b - a) * random()]. *)
Definition random_uniform (g : rng) (a b : Q) : Q :=
  (a + (b - a) * random_random g)%Q.

(** [random.choice(seq)] is [seq[_randbelow(len(seq))]]. *)
Definition random_choice {A} (g : rng) (seq : list A) : result A :=
  match seq with
  | [] => Raise (IndexError "Cannot choose from an empty sequence")
  | _ => py_index seq (randbelow_draw g mod length seq)
  end.

(** ** functions/predict_disease/main.py *)

(** The array [preprocess_image] returns: shape (1, 224, 224, 3). *)
Abbreviation image_batch := (list (list (list (list Q)))).

(** A loaded Keras model, through [model.predict]: a batch of output
    rows, or an exception. *)
Abbreviation keras_model := (image_batch -> result (list (list Q))).

(** The module-level state the handlers read.  [DISEASE_INFO] is the
    table of [disease_info.json]: disease key to care record.
    [preprocess_image] stands for the base64, PIL and numpy pipeline of
    lines 62-81: its array, or the exception it raises. *)
Record server := {
  DISEASE_INFO : gmap string dict;
  model : option keras_model;
  class_names : list string;
  preprocess_image : json -> result image_batch
}.

Definition fallback_class_names : list string :=
  [ "Tomato___Late_blight"; "Corn___Common_rust"; "Potato___Early_blight";
    "Apple___Apple_scab"; "Grape___Black_rot" ].

(** The outcomes of the calls the module makes while it is imported, in
    source order: reading [disease_info.json] (line 24), creating the
    storage client and downloading the blobs under [MODEL_PATH] (lines
    29-41), [tf.keras.models.load_model] (line 45), downloading and
    parsing [class_names.json] (lines 54-55). *)
Record cold_start := {
  read_disease_info : result (gmap string dict);
  download_model_files : result unit;
  load_model : result keras_model;
  fetch_class_names : result (list string)
}.

(** Lines 23-60.  Only the last two steps sit inside a [try]. *)
Definition bootstrap (pre : json -> result image_batch) (w : cold_start)
  : result server :=
  info ← read_disease_info w;
  _ ← download_model_files w;
  let model :=
    match load_model w with
    | Ok m => Some m
    | Raise _ => None
    end in
  let class_names :=
    match fetch_class_names w with
    | Ok names => names
    | Raise _ => fallback_class_names
    end in
  Ok {| DISEASE_INFO := info; model := model; class_names := class_names;
        preprocess_image := pre |}.

Inductive http_method := GET | POST | OPTIONS.

(** A request as the handler sees it: [request.method] and the outcome of
    [request.get_json()] ([JNull] is Python's [None]). *)
Record request := { method : http_method; get_json : result json }.

(** The first component of the tuple a view returns: a string, or the
    value the view hands to [jsonify].  [Jsonify j] records the argument,
    not the bytes Flask writes: the fields of [j] are in the order the
    view builds the dict, while the order of the keys in the serialised
    body is chosen by Flask's JSON provider (which sorts them by
    default), not by this program. *)
Inductive payload :=
| Text (s : string)
| Jsonify (j : json).

(** The tuple a view returns: body, status, and the headers it sets
    itself. *)
Record response := {
  body : payload;
  status : Z;
  headers : list (string * string)
}.

(** Lines 83-89. *)
Definition health_check (srv : server) : response :=
  {| body := Jsonify (JObj [ ("status", JStr "healthy");
                             ("model_loaded",
                              JBool (match model srv with Some _ => true | None => false end)) ]);
     status := 200;
     headers := [] |}.

Definition preflight_headers : list (string * string) :=
  [ ("Access-Control-Allow-Origin", "*");
    ("Access-Control-Allow-Methods", "POST");
    ("Access-Control-Allow-Headers", "Content-Type");
    ("Access-Control-Max-Age", "3600") ].

Definition cors_headers : list (string * string) :=
  [ ("Access-Control-Allow-Origin", "*") ].

(** Lines 115-127: the predicted class name and its raw confidence. *)
Definition classify (srv : server) (g : rng) (processed_image : image_batch)
  : result (string * Q) :=
  match model srv with
  | Some m =>
      predictions ← m processed_image;
      row ← py_index predictions 0;
      class_idx ← argmax row;
      confidence ← py_index row class_idx;
      let disease_class :=
        if (class_idx <? length (class_names srv))%nat
        then nth class_idx (class_names srv) "Unknown"
        else "Unknown" in
      Ok (disease_class, confidence)
  | None =>
      disease_class ← random_choice g (class_names srv);
      let confidence := random_uniform g (75 # 100) (95 # 100) in
      Ok (disease_class, confidence)
  end.

(** Line 130. *)
Definition disease_name (disease_class : string) : string :=
  PyStr.replace "_" " " (PyStr.replace "___" " - " disease_class).

(** Line 133. *)
Definition disease_key (disease_class : string) : result string :=
  if PyStr.contains "___" disease_class
  then py_index (PyStr.split "___" disease_class) 1
  else Ok disease_class.

Definition strings (l : list string) : json := JArr (map JStr l).

(** The default of the lookup in lines 134-155. *)
Definition generic_record (name : string) : dict :=
  [ ("name", JStr name);
    ("severity", JStr "Medium");
    ("symptoms", strings [ "Leaf discoloration or spots";
                           "Wilting or drooping leaves";
                           "Stunted growth";
                           "Unusual leaf patterns" ]);
    ("treatment", strings [ "Remove affected plant parts";
                            "Apply appropriate fungicide or pesticide";
                            "Improve air circulation around plants";
                            "Ensure proper watering schedule" ]);
    ("prevention", strings [ "Use disease-resistant varieties";
                             "Practice crop rotation";
                             "Maintain proper plant spacing";
                             "Monitor plants regularly for early detection" ]) ].

(** Lines 134-155: [DISEASE_INFO.get(disease_key, {...})]. *)
Definition care_record (srv : server) (key name : string) : dict :=
  match DISEASE_INFO srv !! key with
  | Some record => record
  | None => generic_record name
  end.

(** Lines 158-165. *)
Definition build_result (info : dict) (name : string) (confidence : Q) : json :=
  JObj [ ("disease", dict_get info "name" (JStr name));
         ("confidence", JFloat (round2 (confidence * 100)));
         ("severity", dict_get info "severity" (JStr "Medium"));
         ("symptoms", dict_get info "symptoms" (JArr []));
         ("treatment", dict_get info "treatment" (JArr []));
         ("prevention", dict_get info "prevention" (JArr [])) ].

(** Lines 129-165, from the predicted class to the response dict. *)
Definition describe (srv : server) (disease_class : string) (confidence : Q)
  : result json :=
  let name := disease_name disease_class in
  key ← disease_key disease_class;
  let info := care_record srv key name in
  Ok (build_result info name confidence).

(** Lines 112-165: everything after the guard. *)
Definition predict_result (srv : server) (g : rng) (image : json) : result json :=
  processed_image ← preprocess_image srv image;
  '(disease_class, confidence) ← classify srv g processed_image;
  describe srv disease_class confidence.

(** The body of the [try] (lines 107-167). *)
Definition try_block (srv : server) (g : rng) (req : request) : result response :=
  request_json ← get_json req;
  missing ←
    (if negb (truthy request_json) then Ok true
     else present ← py_in "image" request_json; Ok (negb present));
  if (missing : bool) then
    Ok {| body := Jsonify (JObj [ ("error", JStr "No image provided") ]);
          status := 400; headers := cors_headers |}
  else
    image ← py_getitem request_json "image";
    result ← predict_result srv g image;
    Ok {| body := Jsonify result; status := 200; headers := cors_headers |}.

(** Lines 91-171. *)
Definition predict_disease (srv : server) (g : rng) (req : request) : response :=
  match method req with
  | OPTIONS => {| body := Text ""; status := 204; headers := preflight_headers |}
  | _ =>
      match try_block srv g req with
      | Ok resp => resp
      | Raise e =>
          {| body := Jsonify (JObj [ ("error", JStr (str e)) ]);
             status := 500; headers := cors_headers |}
      end
  end.

(** A header of a response, by name. *)
Fixpoint header (name : string) (hs : list (string * string)) : option string :=
  match hs with
  | [] => None
  | (k, v) :: hs' => if String.eqb k name then Some v else header name hs'
  end.

(** A field of a JSON response body. *)
Definition body_field (name : string) (r : response) : option json :=
  match body r with
  | Jsonify (JObj fields) => dict_lookup name fields
  | _ => None
  end.

(** ** ml/prepare_dataset.py *)

Module Dataset.

Definition BUCKET_NAME : string := "kenya-agri-farmwise-ml".
Definition GCS_PREFIX : string := "datasets/plantvillage".

(** The downloaded dataset on disk.  The children of a directory are in
    the order the operating system lists them. *)
#[warnings="-register-all"]
Inductive tree :=
| File (name : string)
| Dir (name : string) (children : list tree).

Definition dir_names (children : list tree) : list string :=
  flat_map (fun c => match c with Dir n _ => [n] | File _ => [] end) children.

Definition file_names (children : list tree) : list string :=
  flat_map (fun c => match c with File n => [n] | Dir _ _ => [] end) children.

(** The sub-directory called [name], when [name in dirs]. *)
Fixpoint find_dir (name : string) (children : list tree) : option tree :=
  match children with
  | [] => None
  | Dir n cs :: rest => if String.eqb n name then Some (Dir n cs) else find_dir name rest
  | File _ :: rest => find_dir name rest
  end.

(** [os.path.join(a, b)] for a relative [b]; [sep] is [os.sep]. *)
Definition os_path_join (sep a b : string) : string :=
  if String.eqb a "" || PyStr.endswith sep a then a +:+ b
  else a +:+ sep +:+ b.

(** [os.path.relpath(path, start)] for a normalised [path] below
    [start], which is what the upload loop passes. *)
Definition os_path_relpath (sep path start : string) : string :=
  if PyStr.startswith start path then
    let rest := PyStr.drop (String.length start) path in
    if PyStr.startswith sep rest then PyStr.drop (String.length sep) rest else rest
  else path.

(** [os.walk(top)], top-down: every directory with its path and its
    entries ([dirs] and [files] are [dir_names] and [file_names] of the
    entries). *)
Fixpoint walk (sep top : string) (t : tree) : list (string * list tree) :=
  match t with
  | File _ => []
  | Dir _ children =>
      (top, children) ::
      flat_map (fun c =>
                  match c with
                  | Dir n _ => walk sep (os_path_join sep top n) c
                  | File _ => []
                  end) children
  end.

(** One round of the loop of lines 40-49; a located directory is kept
    with its path. *)
Definition locate_step (sep : string)
    (found : option (string * tree) * option (string * tree))
    (entry : string * list tree)
  : option (string * tree) * option (string * tree) :=
  let '(train_dir, val_dir) := found in
  let '(root, children) := entry in
  let pick (name : string) (current : option (string * tree)) :=
    match current, find_dir name children with
    | None, Some t => Some (os_path_join sep root name, t)
    | _, _ => current
    end in
  let train_dir := pick "train" train_dir in
  let val_dir := pick "val" val_dir in
  let val_dir := pick "valid" val_dir in
  let val_dir := pick "validation" val_dir in
  (train_dir, val_dir).

(** Lines 35-60: the splits to upload, each with its name, its path and
    its directory. *)
Definition find_splits (sep dataset_path : string) (dataset : tree)
  : list (string * (string * tree)) :=
  let '(train_dir, val_dir) :=
    fold_left (locate_step sep) (walk sep dataset_path dataset) (None, None) in
  let splits :=
    match train_dir with Some d => [("train", d)] | None => [] end ++
    match val_dir with Some d => [("val", d)] | None => [] end in
  match splits with
  | [] => [("all", (dataset_path, dataset))]
  | _ => splits
  end.

Definition upload_suffixes : list string :=
  [".jpg"; ".jpeg"; ".png"; ".JPG"; ".JPEG"; ".PNG"].

(** Line 74. *)
Definition gcs_path (split_name relative_path : string) : string :=
  PyStr.replace "\" "/" (GCS_PREFIX +:+ "/" +:+ split_name +:+ "/" +:+ relative_path).

(** Lines 69-80 for one file: the bucket (object name to the local file
    uploaded under it) and [file_count]. *)
Definition upload_file (sep split_name split_dir root : string)
    (acc : gmap string string * nat) (file : string) : gmap string string * nat :=
  if PyStr.endswith_any upload_suffixes file then
    let local_path := os_path_join sep root file in
    let relative_path := os_path_relpath sep local_path split_dir in
    (<[gcs_path split_name relative_path := local_path]> (fst acc), S (snd acc))
  else acc.

(** Lines 65-85 for one split. *)
Definition upload_split (sep : string) (bucket : gmap string string)
    (split : string * (string * tree)) : gmap string string * nat :=
  let '(split_name, (split_dir, t)) := split in
  fold_left
    (fun acc entry =>
       fold_left (upload_file sep split_name split_dir (fst entry)) (file_names (snd entry)) acc)
    (walk sep split_dir t) (bucket, O).

(** Lines 27-87: the bucket afterwards and the [file_count] printed for
    every split. *)
Definition upload_to_gcs (sep dataset_path : string) (dataset : tree)
    (bucket : gmap string string) : gmap string string * list (string * nat) :=
  fold_left
    (fun acc split =>
       let '(b, n) := upload_split sep (fst acc) split in
       (b, snd acc ++ [(fst split, n)]))
    (find_splits sep dataset_path dataset) (bucket, []).

(** [bucket.list_blobs(prefix=...)]: the names of the objects under the
    prefix. *)
Definition list_blobs (prefix : string) (bucket : gmap string string) : list string :=
  filter (fun name => PyStr.startswith prefix name = true) (map fst (map_to_list bucket)).

Definition manifest_suffixes : list string := [".jpg"; ".jpeg"; ".png"].

(** Lines 118-125 for one blob. *)
Definition csv_line (name : string) : list string :=
  if PyStr.endswith_any manifest_suffixes name then
    let parts := PyStr.split "/" name in
    if (4 <=? length parts)%nat then
      let class_name := nth (length parts - 2) parts "" in
      ["gs://" +:+ BUCKET_NAME +:+ "/" +:+ name +:+ "," +:+ class_name]
    else []
  else [].

(** Lines 111-125: [csv_lines]. *)
Definition create_dataset_csv (bucket : gmap string string) : list string :=
  flat_map csv_line (list_blobs (GCS_PREFIX +:+ "/train/") bucket).

(** The training images in the bucket. *)
Definition training_images (bucket : gmap string string) : list string :=
  filter (fun name => PyStr.endswith_any upload_suffixes name = true)
         (list_blobs (GCS_PREFIX +:+ "/train/") bucket).

End Dataset.

(** ** ml/train_model.py *)

Module Train.

(** The parsed command line. *)
Record args := { epochs : Z; batch_size : Z; learning_rate : Q }.

(** The settings of [model_callbacks] (lines 200-227) that steer
    training: [EarlyStopping(monitor='val_loss', patience=5)] and
    [ReduceLROnPlateau(monitor='val_loss', factor=0.2, patience=3,
    min_lr=1e-7)].  The checkpoint and the two loggers only write
    files. *)
Record callbacks := {
  early_stopping_patience : nat;
  reduce_lr_factor : Q;
  reduce_lr_patience : nat;
  min_lr : Q
}.

Definition model_callbacks : callbacks :=
  {| early_stopping_patience := 5;
     reduce_lr_factor := 2 # 10;
     reduce_lr_patience := 3;
     min_lr := 1 # 10000000 |}.

(** One [model.fit] call of [train_model]: whether the backbone is
    trainable, the learning rate the model was compiled with, the
    [epochs] argument and the callbacks. *)
Record fit_call := {
  backbone_trainable : bool;
  fit_learning_rate : Q;
  fit_epochs : Z;
  fit_callbacks : callbacks
}.

(** Lines 229-259; [//] is floor division. *)
Definition train_model (a : args) : list fit_call :=
  [ {| backbone_trainable := false;
       fit_learning_rate := learning_rate a;
       fit_epochs := (epochs a / 2)%Z;
       fit_callbacks := model_callbacks |};
    {| backbone_trainable := true;
       fit_learning_rate := (learning_rate a / 10)%Q;
       fit_epochs := (epochs a / 2)%Z;
       fit_callbacks := model_callbacks |} ].

(** The sum of the [epochs] arguments. *)
Definition total_epochs (calls : list fit_call) : Z :=
  fold_right Z.add 0%Z (map fit_epochs calls).

(** [EarlyStopping] with [monitor='val_loss'] and no [min_delta]: the
    loss went below the best one seen ([None] is the initial
    infinity). *)
Definition is_improvement (current : Q) (best : option Q) : bool :=
  match best with
  | None => true
  | Some b => negb (Qle_bool b current)
  end.

(** The epoch loop of [model.fit] under [EarlyStopping]: [remaining]
    epochs are left of [range(epochs)], [epoch] is the next one,
    [val_loss] gives the validation loss each epoch ends with.  An epoch
    without improvement counts up [wait]; when [wait] reaches the
    patience the loop stops after that epoch.  The result is the number
    of epochs run. *)
Fixpoint fit_loop (patience : nat) (val_loss : nat -> Q)
    (remaining epoch : nat) (best : option Q) (wait : nat) : nat :=
  match remaining with
  | O => epoch
  | S remaining' =>
      let current := val_loss epoch in
      if is_improvement current best
      then fit_loop patience val_loss remaining' (S epoch) (Some current) O
      else if (patience <=? S wait)%nat then S epoch
           else fit_loop patience val_loss remaining' (S epoch) best (S wait)
  end.

(** The epochs one [model.fit] call runs: [EarlyStopping] starts afresh
    at [on_train_begin]. *)
Definition epochs_run (call : fit_call) (val_loss : nat -> Q) : nat :=
  fit_loop (early_stopping_patience (fit_callbacks call)) val_loss
           (Z.to_nat (fit_epochs call)) O None O.

End Train.

(** ** Fixtures: a small deployment and a small dataset *)

Definition late_blight_record : dict :=
  [ ("name", JStr "Late Blight");
    ("severity", JStr "High");
    ("symptoms", strings ["Dark water-soaked lesions on leaves"]);
    ("treatment", strings ["Apply a copper-based fungicide"]);
    ("prevention", strings ["Avoid overhead irrigation"]) ].

Definition demo_table : gmap string dict := {[ "Late_blight" := late_blight_record ]}.

(** An imaging pipeline that accepts every base64 string. *)
Definition demo_preprocess (image : json) : result image_batch :=
  match image with
  | JStr _ => Ok [[[[ 1 # 2; 1 # 2; 1 # 2 ]]]]
  | _ => Raise (TypeError "argument should be a bytes-like object or ASCII string")
  end.

Definition demo_server (m : option keras_model) : server :=
  {| DISEASE_INFO := demo_table; model := m;
     class_names := fallback_class_names; preprocess_image := demo_preprocess |}.

(** A softmax output whose largest entry is at index 0. *)
Definition softmax_model : keras_model :=
  fun _ => Ok [[ 7 # 10; 1 # 10; 1 # 10; 1 # 20; 1 # 20 ]].

(** A model with more outputs than there are labels. *)
Definition wide_model : keras_model :=
  fun _ => Ok [[ 1 # 10; 0%Q; 0%Q; 0%Q; 0%Q; 1 # 10; 8 # 10 ]].

(** A model whose last layer is not normalised. *)
Definition logit_model : keras_model := fun _ => Ok [[ 1 # 2; 2%Q ]].


Definition demo_rng : rng := {| randbelow_draw := 7; random_bits := 2 ^ 52 |}.

Definition post (request_json : json) : request :=
  {| method := POST; get_json := Ok request_json |}.

Definition demo_request : request := post (JObj [ ("image", JStr "iVBORw0KGgo=") ]).

Definition demo_dataset : Dataset.tree :=
  Dataset.Dir "plantvillage"
    [ Dataset.Dir "train"
        [ Dataset.Dir "Tomato___healthy" [ Dataset.File "leaf1.JPG" ] ] ].

(** ** The rest of the scripts *)

(** *** Character-wise readings of [replace] and [split]

    For a separator of one character both functions can be read off the
    string character by character; the properties below go through these
    readings. *)

Module PyChar.

(** [s.replace(c, new)] for a one-character [c]. *)
Fixpoint subst_char (c : ascii) (new s : string) : string :=
  match s with
  | EmptyString => EmptyString
  | String x s' =>
      if Ascii.eqb c x then new +:+ subst_char c new s'
      else String x (subst_char c new s')
  end.

(** [s.split(c)] for a one-character [c]. *)
Fixpoint split_char (c : ascii) (s : string) : list string :=
  match s with
  | EmptyString => [EmptyString]
  | String x s' =>
      if Ascii.eqb c x then EmptyString :: split_char c s'
      else match split_char c s' with
           | h :: t => String x h :: t
           | [] => [String x EmptyString]
           end
  end.

End PyChar.

(** *** functions/predict_disease/main.py, lines 21-41 *)

Definition MODEL_PATH : string := "models/plant-disease-detector".
Definition local_model_path : string := "/tmp/model".

(** [os.path.join(a, b)] on the POSIX host the service runs on. *)
Definition posix_join (a b : string) : string :=
  if PyStr.startswith "/" b then b
  else if String.eqb a "" || PyStr.endswith "/" a then a +:+ b
  else a +:+ "/" +:+ b.

(** Lines 36-41: the blobs that are downloaded, each with the local file
    it is written to; [blob_names] is what [list_blobs] returned. *)
Definition download_plan (blob_names : list string) : list (string * string) :=
  flat_map (fun name =>
              if PyStr.endswith "/" name then []
              else [(name, posix_join "/tmp" name)]) blob_names.

(** The entry a path names, as the list of names from the root: POSIX
    path resolution when no component is a symbolic link.  Empty and '.'
    components are skipped, '..' steps to the parent, and the root is
    its own parent.  [stack] holds the names walked so far, innermost
    first. *)
Fixpoint walk_components (stack components : list string) : list string :=
  match components with
  | [] => rev stack
  | c :: cs =>
      if String.eqb c "" || String.eqb c "." then walk_components stack cs
      else if String.eqb c ".." then walk_components (tail stack) cs
      else walk_components (c :: stack) cs
  end.

Definition resolve (path : string) : list string :=
  walk_components [] (PyStr.split "/" path).

(** Whether the resolved [file] is the directory [dir] or lies below
    it. *)
Fixpoint below_dir (dir file : list string) : bool :=
  match dir, file with
  | [], _ => true
  | d :: dir', f :: file' => String.eqb d f && below_dir dir' file'
  | _ :: _, [] => false
  end.

(** *** ml/prepare_dataset.py, lines 35-102 *)

Module DatasetVerify.
Import Dataset.

(** Where a located training directory comes from. *)
Definition train_origin (sep : string) (all : list (string * list tree))
    (d : option (string * tree)) : Prop :=
  forall p t, d = Some (p, t) ->
    exists root children,
      (root, children) ∈ all /\ p = os_path_join sep root "train" /\
      find_dir "train" children = Some t.

(** Where a located validation directory comes from. *)
Definition val_origin (sep : string) (all : list (string * list tree))
    (d : option (string * tree)) : Prop :=
  forall p t, d = Some (p, t) ->
    exists root children name,
      (root, children) ∈ all /\ name ∈ ["val"; "valid"; "validation"] /\
      p = os_path_join sep root name /\ find_dir name children = Some t.


(** The shape of an object name [upload_to_gcs] writes: below one of the
    three split prefixes and free of backslashes. *)
Definition uploaded_key (key : string) : Prop :=
  PyStr.contains "\" key = false /\
  exists split,
    split ∈ ["train"; "val"; "all"] /\
    PyStr.startswith (GCS_PREFIX +:+ "/" +:+ split +:+ "/") key = true.

(** What an upload keeps true of the bucket it started from: no object
    is lost, and every object is an old one or sits at an uploaded key. *)
Definition extends (bucket0 bucket : gmap string string) : Prop :=
  (forall key, is_Some (bucket0 !! key) -> is_Some (bucket !! key)) /\
  (forall key v, bucket !! key = Some v -> bucket0 !! key = Some v \/ uploaded_key key).

(** Where an object of the bucket comes from when [splits] are uploaded
    into [bucket0]: it was there before with the same content, or it
    holds a file of a walked directory of a split whose name has one of
    the six suffixes, under the key built from the file's path. *)
Definition image_origin (sep : string) (splits : list (string * (string * tree)))
    (bucket0 : gmap string string) (key local : string) : Prop :=
  bucket0 !! key = Some local \/
  exists split_name split_dir t root children file,
    (split_name, (split_dir, t)) ∈ splits /\
    (root, children) ∈ walk sep split_dir t /\
    file ∈ file_names children /\
    PyStr.endswith_any upload_suffixes file = true /\
    local = os_path_join sep root file /\
    key = gcs_path split_name (os_path_relpath sep local split_dir).

(** The image files [os.walk] meets below a split directory, by name. *)
Definition image_files (sep split_dir : string) (t : tree) : list string :=
  List.filter (PyStr.endswith_any upload_suffixes)
    (flat_map (fun entry => file_names (snd entry)) (walk sep split_dir t)).

(** A directory name as a file system has it: not empty and not ending
    in the separator character. *)
Definition name_ok (c : ascii) (name : string) : bool :=
  match PyStr.last_char name with
  | Some x => negb (Ascii.eqb x c)
  | None => false
  end.

(** Every directory below the root of [t] has such a name. *)
Fixpoint dirs_ok (c : ascii) (t : tree) : bool :=
  match t with
  | File _ => true
  | Dir _ children =>
      forallb (fun child =>
                 match child with
                 | Dir n _ => name_ok c n && dirs_ok c child
                 | File _ => true
                 end) children
  end.

(** A directory path [os.walk(split_dir)] can yield: [split_dir] itself
    or a path below it, never ending in the separator. *)
Definition below (sep split_dir root : string) : Prop :=
  root <> "" /\ PyStr.endswith sep root = false /\
  (root = split_dir \/ exists r, root = split_dir +:+ sep +:+ r).

(** The two counts [verify_upload] prints. *)
Definition verify_upload (bucket : gmap string string) : list (string * nat) :=
  map (fun split =>
         (split, length (list_blobs (GCS_PREFIX +:+ "/" +:+ split +:+ "/") bucket)))
      ["train"; "val"].

End DatasetVerify.

(** *** ml/train_model.py, lines 33-102 *)

Module TrainData.

Definition CLASS_NAMES : list string :=
  [ "Apple___Apple_scab";
    "Apple___Black_rot";
    "Apple___Cedar_apple_rust";
    "Apple___healthy";
    "Blueberry___healthy";
    "Cherry_(including_sour)___Powdery_mildew";
    "Cherry_(including_sour)___healthy";
    "Corn_(maize)___Cercospora_leaf_spot Gray_leaf_spot";
    "Corn_(maize)___Common_rust_";
    "Corn_(maize)___Northern_Leaf_Blight";
    "Corn_(maize)___healthy";
    "Grape___Black_rot";
    "Grape___Esca_(Black_Measles)";
    "Grape___Leaf_blight_(Isariopsis_Leaf_Spot)";
    "Grape___healthy";
    "Orange___Haunglongbing_(Citrus_greening)";
    "Peach___Bacterial_spot";
    "Peach___healthy";
    "Pepper,_bell___Bacterial_spot";
    "Pepper,_bell___healthy";
    "Potato___Early_blight";
    "Potato___Late_blight";
    "Potato___healthy";
    "Raspberry___healthy";
    "Soybean___healthy";
    "Squash___Powdery_mildew";
    "Strawberry___Leaf_scorch";
    "Strawberry___healthy";
    "Tomato___Bacterial_spot";
    "Tomato___Early_blight";
    "Tomato___Late_blight";
    "Tomato___Leaf_Mold";
    "Tomato___Septoria_leaf_spot";
    "Tomato___Spider_mites Two-spotted_spider_mite";
    "Tomato___Target_Spot";
    "Tomato___Tomato_Yellow_Leaf_Curl_Virus";
    "Tomato___Tomato_mosaic_virus";
    "Tomato___healthy" ].

Definition NUM_CLASSES : nat := length CLASS_NAMES.

(** [tf.where(tf.equal(names, class_name))]: the positions that hold
    the name, in increasing order, counted from [i]. *)
Fixpoint where_equal (i : nat) (names : list string) (class_name : string) : list nat :=
  match names with
  | [] => []
  | n :: names' =>
      if String.eqb n class_name then i :: where_equal (S i) names' class_name
      else where_equal (S i) names' class_name
  end.

Definition InvalidArgumentError (msg : string) : exn := Exn "InvalidArgumentError" msg.

(** [tf.one_hot(label, depth)] *)
Definition one_hot (label depth : nat) : list Q :=
  map (fun j => if (j =? label)%nat then 1%Q else 0%Q) (seq 0 depth).

(** Lines 94-100 of [parse_image]: the label of a file path. *)
Definition parse_label (file_path : string) : result (list Q) :=
  let parts := PyStr.split "/" file_path in
  class_name ←
    (if (2 <=? length parts)%nat then py_index parts (length parts - 2)
     else Raise (InvalidArgumentError "slice index -2 of dimension 0 out of bounds."));
  label ←
    match where_equal 0 CLASS_NAMES class_name with
    | i :: _ => Ok i
    | [] => Raise (InvalidArgumentError "slice index 0 of dimension 0 out of bounds.")
    end;
  Ok (one_hot label NUM_CLASSES).

End TrainData.

(** *** ml/deploy_pretrained_model.py, lines 35-40 *)

Module Deploy.

Definition model_path : string := "pretrained_plant_model".

(** Line 38. *)
Definition blob_path (relative_path : string) : string :=
  "models/plant-disease-detector/" +:+ relative_path.

(** Lines 35-40: the objects written for the saved model, each with the
    local file it comes from. *)
Definition upload_model (sep : string) (saved_model : Dataset.tree)
    (bucket : gmap string string) : gmap string string :=
  fold_left
    (fun b entry =>
       fold_left
         (fun b file =>
            let local_path := Dataset.os_path_join sep (fst entry) file in
            <[blob_path (Dataset.os_path_relpath sep local_path model_path) := local_path]> b)
         (Dataset.file_names (snd entry)) b)
    (Dataset.walk sep model_path saved_model) bucket.

End Deploy.

(** *** More fixtures *)

(** A dataset without a training or validation directory. *)
Definition flat_dataset : Dataset.tree :=
  Dataset.Dir "plantvillage"
    [ Dataset.Dir "color"
        [ Dataset.Dir "Tomato___healthy" [ Dataset.File "leaf1.JPG"; Dataset.File "leaf2.jpg" ] ] ].

(** A dataset whose top directory holds 'validation', 'valid' and
    'train', listed in that order. *)
Definition three_way_dataset : Dataset.tree :=
  Dataset.Dir "plantvillage"
    [ Dataset.Dir "validation" [ Dataset.Dir "Tomato___healthy" [ Dataset.File "leaf3.jpg" ] ];
      Dataset.Dir "valid" [ Dataset.Dir "Tomato___healthy" [ Dataset.File "leaf2.jpg" ] ];
      Dataset.Dir "train"
        [ Dataset.Dir "Tomato___healthy" [ Dataset.File "leaf1.JPG" ];
          Dataset.Dir "val" [ Dataset.File "leaf4.png" ] ] ].

Definition train_directory : Dataset.tree :=
  Dataset.Dir "train"
    [ Dataset.Dir "Tomato___healthy" [ Dataset.File "leaf1.JPG"; Dataset.File "notes.txt" ] ].


(** * Properties *)

(** ** The definitions on the inputs of the source *)

Example replace_label :
  disease_name "Tomato___Late_blight" = "Tomato - Late blight".
Proof. reflexivity. Qed.

Example split_label :
  PyStr.split "___" "Corn___Common_rust" = ["Corn"; "Common_rust"].
Proof. reflexivity. Qed.

Example split_leftmost : PyStr.split "___" "A____B___" = ["A"; "_B"; ""].
Proof. reflexivity. Qed.

Example endswith_is_case_sensitive : PyStr.endswith ".jpg" "leaf.JPG" = false.
Proof. reflexivity. Qed.

Example round2_ties_to_even :
  round2 (75125 # 1000) = 7512 # 100 /\ round2 (75135 # 1000) = 7514 # 100.
Proof. split; reflexivity. Qed.

Example argmax_first_maximum : argmax [1 # 2; 3 # 4; 3 # 4; 1 # 4] = Ok 1%nat.
Proof. reflexivity. Qed.

Example gcs_path_windows :
  Dataset.gcs_path "train" "Tomato___healthy\leaf1.JPG"
  = "datasets/plantvillage/train/Tomato___healthy/leaf1.JPG".
Proof. reflexivity. Qed.

Example health_check_degraded :
  body_field "model_loaded" (health_check (demo_server None)) = Some (JBool false).
Proof. reflexivity. Qed.

(** ** Strings *)

Module PyStrFacts.
Import PyStr.

Lemma length_drop n s : String.length (drop n s) = (String.length s - n)%nat.
Proof.
  revert s; induction n as [|n IH]; intros [|c s]; simpl; auto with arith.
Qed.

Lemma startswith_length p s :
  startswith p s = true -> (String.length p <= String.length s)%nat.
Proof.
  revert s; induction p as [|a p IH]; intros [|b s]; simpl; try lia; try discriminate.
  destruct (Ascii.eqb a b); [|discriminate].
  intros H; apply IH in H; lia.
Qed.

Lemma find_bound sub s i :
  find sub s = Some i -> (i + String.length sub <= String.length s)%nat.
Proof.
  revert i; induction s as [|c s IH]; intros i; simpl.
  - destruct (startswith sub "") eqn:E; [|discriminate].
    intros [= <-]. apply startswith_length in E. simpl in *; lia.
  - destruct (startswith sub (String c s)) eqn:E.
    + intros [= <-]. apply startswith_length in E. simpl in *; lia.
    + destruct (find sub s) as [j|]; simpl; [|discriminate].
      intros [= <-]. specialize (IH j eq_refl). lia.
Qed.

Lemma contains_find sub s :
  contains sub s = true <-> exists i, find sub s = Some i.
Proof.
  unfold contains; destruct (find sub s) as [i|]; split; eauto.
  - discriminate.
  - intros [i [=]].
Qed.

(** More fuel than the string is long changes nothing. *)
Lemma split_fuel_stable sep s n :
  sep <> "" -> (String.length s < n)%nat ->
  split_fuel n sep s = split sep s.
Proof.
  intros Hsep. unfold split.
  assert (G : forall k m r, (String.length r < k)%nat -> (String.length r < m)%nat ->
                            split_fuel k sep r = split_fuel m sep r).
  { induction k as [|k IH]; intros [|m] r Hk Hm; try lia.
    simpl. destruct (find sep r) as [i|] eqn:E; [|reflexivity].
    f_equal. apply find_bound in E.
    assert (0 < String.length sep)%nat by (destruct sep; simpl; [congruence|lia]).
    apply IH; rewrite length_drop; lia. }
  intros H; apply G; lia.
Qed.

Lemma replace_fuel_stable old new s n :
  old <> "" -> (String.length s < n)%nat ->
  replace_fuel n old new s = replace old new s.
Proof.
  intros Hold. unfold replace.
  assert (G : forall k m r, (String.length r < k)%nat -> (String.length r < m)%nat ->
                            replace_fuel k old new r = replace_fuel m old new r).
  { induction k as [|k IH]; intros [|m] r Hk Hm; try lia.
    simpl. destruct (find old r) as [i|] eqn:E; [|reflexivity].
    do 2 f_equal. apply find_bound in E.
    assert (0 < String.length old)%nat by (destruct old; simpl; [congruence|lia]).
    apply IH; rewrite length_drop; lia. }
  intros H; apply G; lia.
Qed.

(** The first two segments of a split at an occurrence. *)
Lemma split_cut sep s i :
  find sep s = Some i ->
  split sep s = take i s :: split_fuel (String.length s) sep (drop (i + String.length sep) s).
Proof. intros E. unfold split. simpl. now rewrite E. Qed.

Lemma split_fuel_head n sep r :
  (0 < n)%nat ->
  head (split_fuel n sep r)
  = Some (match find sep r with Some j => take j r | None => r end).
Proof. destruct n; [lia|]. intros _. simpl. now destruct (find sep r). Qed.

Lemma append_nonempty_r a b : b <> "" -> a +:+ b <> "".
Proof. intros Hb E. destruct a; simpl in E; [tauto | discriminate]. Qed.

Lemma append_nonempty_l a b : a <> "" -> a +:+ b <> "".
Proof. intros Ha E. destruct a; simpl in E; [tauto | discriminate]. Qed.

(** Replacing by a non-empty string keeps a non-empty string non-empty. *)
Lemma replace_nonempty old new s :
  new <> "" -> s <> "" -> replace old new s <> "".
Proof.
  intros Hnew Hs. unfold replace. simpl.
  destruct (find old s); [|assumption].
  apply append_nonempty_r, append_nonempty_l, Hnew.
Qed.

End PyStrFacts.

(** ** Numbers *)

Lemma round_half_even_bounds (a b : Z) (x : Q) :
  (inject_Z a <= x)%Q -> (x <= inject_Z b)%Q ->
  (a <= round_half_even x <= b)%Z.
Proof.
  intros Ha Hb.
  assert (Hfa : (a <= Qfloor x)%Z).
  { rewrite <- (Qfloor_Z a). now apply Qfloor_resp_le. }
  assert (Hfb : (Qfloor x <= b)%Z).
  { rewrite <- (Qfloor_Z b). now apply Qfloor_resp_le. }
  assert (Hup : (inject_Z (Qfloor x) < x)%Q -> (Qfloor x + 1 <= b)%Z).
  { intros Hlt. assert (Hq : (inject_Z (Qfloor x) < inject_Z b)%Q) by (eapply Qlt_le_trans; eauto).
    rewrite <- Zlt_Qlt in Hq. lia. }
  unfold round_half_even.
  destruct (x - inject_Z (Qfloor x) ?= 1 # 2)%Q eqn:E.
  - destruct (Z.even (Qfloor x)); [lia|].
    apply Qeq_alt in E. split; [lia|]. apply Hup. lra.
  - lia.
  - apply Qgt_alt in E. split; [lia|]. apply Hup. lra.
Qed.

Lemma round2_bounds (a b : Z) (x : Q) :
  (inject_Z a <= x * 100)%Q -> (x * 100 <= inject_Z b)%Q ->
  (a # 100 <= round2 x)%Q /\ (round2 x <= b # 100)%Q.
Proof.
  intros Ha Hb. destruct (round_half_even_bounds a b _ Ha Hb) as [H1 H2].
  unfold round2, Qle; simpl. lia.
Qed.

(** A probability becomes a percentage between 0 and 100. *)
Lemma round2_percentage (c : Q) :
  (0 <= c)%Q -> (c <= 1)%Q ->
  (0 <= round2 (c * 100))%Q /\ (round2 (c * 100) <= 100)%Q.
Proof.
  intros H0 H1.
  destruct (round2_bounds 0 10000 (c * 100)) as [Ha Hb].
  - change (inject_Z 0) with 0%Q. lra.
  - change (inject_Z 10000) with (10000 # 1)%Q. lra.
  - split.
    + eapply Qle_trans; [|exact Ha]. unfold Qle; simpl; lia.
    + eapply Qle_trans; [exact Hb|]. unfold Qle; simpl; lia.
Qed.


Lemma random_random_range (g : rng) :
  (0 <= random_random g)%Q /\ (random_random g < 1)%Q.
Proof.
  unfold random_random, Qle, Qlt; simpl.
  pose proof (Z.mod_pos_bound (random_bits g) (2 ^ 53) ltac:(lia)). lia.
Qed.

Lemma random_uniform_range (g : rng) (a b : Q) :
  (a <= b)%Q ->
  (a <= random_uniform g a b)%Q /\ (random_uniform g a b <= b)%Q.
Proof.
  intros Hab. destruct (random_random_range g) as [H0 H1].
  unfold random_uniform. split; nra.
Qed.

Lemma random_choice_elem {A} (g : rng) (seq : list A) :
  seq <> [] -> exists a, random_choice g seq = Ok a /\ a ∈ seq.
Proof.
  intros Hne. unfold random_choice, py_index.
  destruct seq as [|a0 seq']; [congruence|].
  set (seq := a0 :: seq') in *.
  assert (Hlt : (randbelow_draw g mod length seq < length seq)%nat).
  { apply Nat.mod_upper_bound. discriminate. }
  destruct (lookup_lt_is_Some_2 _ _ Hlt) as [a Ha].
  rewrite Ha. exists a. split; [reflexivity|]. eapply list_elem_of_lookup_2, Ha.
Qed.

Lemma argmax_from_max (rest pre : list Q) (best_i : nat) (best : Q) :
  pre !! best_i = Some best ->
  Forall (fun x => (x <= best)%Q) pre ->
  exists v, (pre ++ rest) !! argmax_from best_i best (length pre) rest = Some v
            /\ Forall (fun x => (x <= v)%Q) (pre ++ rest).
Proof.
  revert pre best_i best.
  induction rest as [|x rest IH]; intros pre best_i best Hbest Hall; simpl.
  - exists best. rewrite app_nil_r. auto.
  - assert (Hlen : S (length pre) = length (pre ++ [x])) by (rewrite length_app; simpl; lia).
    replace (pre ++ x :: rest) with ((pre ++ [x]) ++ rest) by (now rewrite <- app_assoc).
    rewrite Hlen.
    destruct (Qle_bool x best) eqn:E.
    + apply IH.
      * rewrite lookup_app_l; [assumption|]. eapply lookup_lt_Some, Hbest.
      * apply Forall_app; split; [assumption|]. constructor; [|constructor].
        now apply Qle_bool_iff.
    + assert (Hlt : (best < x)%Q).
      { apply Qnot_le_lt. intros H. apply Qle_bool_iff in H. congruence. }
      apply IH.
      * rewrite lookup_app_r by lia. now rewrite Nat.sub_diag.
      * apply Forall_app; split.
        -- eapply Forall_impl; [exact Hall|]. simpl. intros y Hy. lra.
        -- constructor; [lra|constructor].
Qed.

(** [np.argmax] returns a position of the row, and the entry there is
    the largest. *)
Lemma argmax_spec (row : list Q) (i : nat) :
  argmax row = Ok i ->
  exists v, row !! i = Some v /\ Forall (fun x => (x <= v)%Q) row.
Proof.
  destruct row as [|x rest]; simpl; [discriminate|].
  intros [= <-].
  apply (argmax_from_max rest [x] 0 x); [reflexivity|].
  constructor; [lra|constructor].
Qed.

(** ** The request handler *)

Lemma predict_disease_try srv g req :
  method req <> OPTIONS ->
  predict_disease srv g req
  = match try_block srv g req with
    | Ok resp => resp
    | Raise e => {| body := Jsonify (JObj [ ("error", JStr (str e)) ]);
                    status := 500; headers := cors_headers |}
    end.
Proof. unfold predict_disease. destruct (method req); congruence. Qed.

Lemma disease_key_plain (c : string) :
  PyStr.find "___" c = None -> disease_key c = Ok c.
Proof. intros E. unfold disease_key, PyStr.contains. now rewrite E. Qed.

Lemma disease_key_segment (c : string) (i : nat) :
  PyStr.find "___" c = Some i ->
  disease_key c
  = Ok (let rest := PyStr.drop (i + 3) c in
        match PyStr.find "___" rest with
        | Some j => PyStr.take j rest
        | None => rest
        end).
Proof.
  intros E. unfold disease_key, PyStr.contains. rewrite E.
  rewrite (PyStrFacts.split_cut _ _ _ E). unfold py_index.
  rewrite lookup_cons, <- head_lookup. simpl String.length.
  rewrite PyStrFacts.split_fuel_head; [reflexivity|].
  apply PyStrFacts.find_bound in E. simpl in E. lia.
Qed.

Lemma disease_key_total (c : string) : exists key, disease_key c = Ok key.
Proof.
  destruct (PyStr.find "___" c) as [i|] eqn:E.
  - rewrite (disease_key_segment _ _ E). eauto.
  - rewrite (disease_key_plain _ E). eauto.
Qed.

Lemma disease_name_nonempty (c : string) : c <> "" -> disease_name c <> "".
Proof.
  intros Hc. unfold disease_name.
  apply PyStrFacts.replace_nonempty; [discriminate|].
  apply PyStrFacts.replace_nonempty; [discriminate|assumption].
Qed.

Lemma try_block_object srv g req fields :
  get_json req = Ok (JObj fields) ->
  try_block srv g req
  = match dict_lookup "image" fields with
    | None => Ok {| body := Jsonify (JObj [ ("error", JStr "No image provided") ]);
                    status := 400; headers := cors_headers |}
    | Some image =>
        result ← predict_result srv g image;
        Ok {| body := Jsonify result; status := 200; headers := cors_headers |}
    end.
Proof.
  intros E. unfold try_block. rewrite E. simpl.
  destruct fields as [|[k v] fields]; [reflexivity|]. simpl.
  destruct (if String.eqb k "image" then Some v else dict_lookup "image" fields);
    reflexivity.
Qed.

Lemma try_block_none srv g req :
  get_json req = Ok JNull ->
  try_block srv g req
  = Ok {| body := Jsonify (JObj [ ("error", JStr "No image provided") ]);
          status := 400; headers := cors_headers |}.
Proof. intros E. unfold try_block. now rewrite E. Qed.

(** A body that is not JSON for Flask ([get_json] returns [None]) is
    answered 400. *)
Lemma predict_disease_none_body srv g req :
  method req <> OPTIONS ->
  get_json req = Ok JNull ->
  predict_disease srv g req
  = {| body := Jsonify (JObj [ ("error", JStr "No image provided") ]);
       status := 400; headers := cors_headers |}.
Proof.
  intros Hm Hj. now rewrite (predict_disease_try _ _ _ Hm), (try_block_none _ _ _ Hj).
Qed.

Lemma predict_result_ok srv g image x label conf key :
  preprocess_image srv image = Ok x ->
  classify srv g x = Ok (label, conf) ->
  disease_key label = Ok key ->
  predict_result srv g image
  = Ok (build_result (care_record srv key (disease_name label)) (disease_name label) conf).
Proof.
  intros E1 E2 E3. unfold predict_result. rewrite E1; simpl. rewrite E2; simpl.
  unfold describe. now rewrite E3.
Qed.

Lemma predict_result_inv srv g image r :
  predict_result srv g image = Ok r ->
  exists x label conf key,
    preprocess_image srv image = Ok x /\
    classify srv g x = Ok (label, conf) /\
    disease_key label = Ok key /\
    r = build_result (care_record srv key (disease_name label)) (disease_name label) conf.
Proof.
  unfold predict_result. intros H.
  destruct (preprocess_image srv image) as [x|] eqn:E1; simpl in H; [|discriminate].
  destruct (classify srv g x) as [[label conf]|] eqn:E2; simpl in H; [|discriminate].
  unfold describe in H.
  destruct (disease_key label) as [key|] eqn:E3; simpl in H; [|discriminate].
  injection H as <-. exists x, label, conf, key. auto.
Qed.

(** A request that passes the guard and whose image is classified gets
    the 200 response built from the class and its confidence. *)
Lemma predict_disease_ok srv g req fields image x label conf key :
  method req <> OPTIONS ->
  get_json req = Ok (JObj fields) ->
  dict_lookup "image" fields = Some image ->
  preprocess_image srv image = Ok x ->
  classify srv g x = Ok (label, conf) ->
  disease_key label = Ok key ->
  predict_disease srv g req
  = {| body := Jsonify (build_result (care_record srv key (disease_name label))
                                     (disease_name label) conf);
       status := 200; headers := cors_headers |}.
Proof.
  intros Hm Hj Hi Hx Hc Hk.
  rewrite (predict_disease_try _ _ _ Hm), (try_block_object _ _ _ _ Hj), Hi.
  now rewrite (predict_result_ok _ _ _ _ _ _ _ Hx Hc Hk).
Qed.

(** Every 200 response of a non-preflight request comes from a classified
    image. *)
Lemma predict_disease_200_inv srv g req :
  method req <> OPTIONS ->
  status (predict_disease srv g req) = 200%Z ->
  exists request_json image x label conf key,
    get_json req = Ok request_json /\
    py_getitem request_json "image" = Ok image /\
    preprocess_image srv image = Ok x /\
    classify srv g x = Ok (label, conf) /\
    disease_key label = Ok key /\
    predict_disease srv g req
    = {| body := Jsonify (build_result (care_record srv key (disease_name label))
                                       (disease_name label) conf);
         status := 200; headers := cors_headers |}.
Proof.
  intros Hm. rewrite (predict_disease_try _ _ _ Hm).
  unfold try_block.
  destruct (get_json req) as [rj|] eqn:Ej; simpl; [|discriminate].
  destruct (negb (truthy rj)); simpl; [discriminate|].
  destruct (py_in "image" rj) as [present|]; simpl; [|discriminate].
  destruct present; simpl; [|discriminate].
  destruct (py_getitem rj "image") as [image|] eqn:Ei; simpl; [|discriminate].
  destruct (predict_result srv g image) as [r|] eqn:Er; simpl; [|discriminate].
  intros _. apply predict_result_inv in Er as (x & label & conf & key & E1 & E2 & E3 & ->).
  exists rj, image, x, label, conf, key. auto 10.
Qed.

(** What [classify] returns when a model is loaded. *)
Lemma classify_model_inv srv g m x label conf :
  model srv = Some m ->
  classify srv g x = Ok (label, conf) ->
  exists predictions row class_idx,
    m x = Ok predictions /\ predictions !! 0%nat = Some row /\
    argmax row = Ok class_idx /\ row !! class_idx = Some conf /\
    Forall (fun p => (p <= conf)%Q) row /\
    label = match class_names srv !! class_idx with
            | Some name => name
            | None => "Unknown"
            end.
Proof.
  intros Hm. unfold classify. rewrite Hm. intros H.
  destruct (m x) as [predictions|] eqn:E1; simpl in H; [|discriminate].
  unfold py_index in H.
  destruct (predictions !! 0%nat) as [row|] eqn:E2; simpl in H; [|discriminate].
  destruct (argmax row) as [class_idx|] eqn:E3; simpl in H; [|discriminate].
  destruct (argmax_spec _ _ E3) as (v & Hv & Hmax).
  rewrite Hv in H. simpl in H.
  injection H as <- <-.
  exists predictions, row, class_idx. repeat split; auto.
  destruct (Nat.ltb_spec class_idx (length (class_names srv))) as [Hlt|Hge].
  - destruct (lookup_lt_is_Some_2 _ _ Hlt) as [name Hname]. rewrite Hname.
    now apply nth_lookup_Some with (d := "Unknown") in Hname.
  - now rewrite (lookup_ge_None_2 _ _ Hge).
Qed.

(** What [classify] returns when no model is loaded. *)
Lemma classify_fallback_inv srv g x label conf :
  model srv = None ->
  classify srv g x = Ok (label, conf) ->
  label ∈ class_names srv /\ conf = random_uniform g (75 # 100) (95 # 100).
Proof.
  intros Hm. unfold classify. rewrite Hm. intros H.
  destruct (class_names srv) as [|c cs] eqn:Ec; [discriminate|].
  destruct (random_choice_elem g (c :: cs)) as (a & Ha & Hin); [discriminate|].
  rewrite Ha in H. simpl in H. injection H as <- <-. auto.
Qed.

Lemma classify_fallback srv g x :
  model srv = None -> class_names srv <> [] ->
  exists label,
    classify srv g x = Ok (label, random_uniform g (75 # 100) (95 # 100)) /\
    label ∈ class_names srv.
Proof.
  intros Hm Hne. unfold classify. rewrite Hm.
  destruct (random_choice_elem g (class_names srv) Hne) as (a & Ha & Hin).
  rewrite Ha. simpl. eauto.
Qed.




(** [classify] raises only when the model does, when its output has no
    row or an empty first row, or when there is no model and no label. *)
Lemma classify_raise_inv srv g x e :
  classify srv g x = Raise e ->
  (exists m, model srv = Some m /\
     (m x = Raise e \/
      exists predictions, m x = Ok predictions /\
        (predictions !! 0%nat = None \/ predictions !! 0%nat = Some []))) \/
  (model srv = None /\ class_names srv = []).
Proof.
  unfold classify. destruct (model srv) as [m|]; intros H.
  - left. exists m. split; [reflexivity|].
    destruct (m x) as [predictions|e'] eqn:E1; simpl in H; [|left; congruence].
    right. exists predictions. split; [reflexivity|].
    unfold py_index in H.
    destruct (predictions !! 0%nat) as [row|] eqn:E2; [|now left].
    right. destruct row as [|p row]; [reflexivity|]. exfalso.
    destruct (argmax_spec (p :: row) _ eq_refl) as (v & Hv & _).
    simpl in H, Hv. rewrite Hv in H. discriminate.
  - right. split; [reflexivity|].
    destruct (class_names srv) as [|c cs] eqn:Ec; [reflexivity|]. exfalso.
    destruct (random_choice_elem g (c :: cs)) as (a & Ha & _); [discriminate|].
    rewrite Ha in H. discriminate.
Qed.

(** After the guard, an exception comes from decoding the image or from
    classifying it: building the response raises nothing. *)
Lemma predict_result_raise_inv srv g image e :
  predict_result srv g image = Raise e ->
  preprocess_image srv image = Raise e \/
  exists x, preprocess_image srv image = Ok x /\ classify srv g x = Raise e.
Proof.
  unfold predict_result. intros H.
  destruct (preprocess_image srv image) as [x|e'] eqn:E1; simpl in H; [|left; congruence].
  right. exists x. split; [reflexivity|].
  destruct (classify srv g x) as [[label conf]|e'] eqn:E2; simpl in H; [|congruence].
  exfalso. unfold describe in H.
  destruct (disease_key_total label) as [key Hk]. rewrite Hk in H. discriminate.
Qed.

(** ** Claims about the request handler *)

(** C1.  A POST whose JSON body is a non-zero number has no 'image'
    field, yet the handler answers 500, not 400: the guard's [in] raises
    on a body that is not a container, and the catch-all reports it. *)
Theorem predict_disease_scalar_body (srv : server) (g : rng) (n : Z) :
  n <> 0%Z ->
  predict_disease srv g (post (JInt n))
  = {| body := Jsonify (JObj [ ("error", JStr "argument of type 'int' is not iterable") ]);
       status := 500; headers := cors_headers |}.
Proof.
  intros Hn. unfold predict_disease, try_block; simpl.
  destruct (Z.eqb_spec n 0) as [->|_]; [congruence|reflexivity].
Qed.

Lemma predict_disease_scalar_body_witness :
  status (predict_disease (demo_server None) demo_rng (post (JInt 5))) = 500%Z /\
  body_field "error" (predict_disease (demo_server None) demo_rng (post (JInt 5)))
  = Some (JStr "argument of type 'int' is not iterable").
Proof.
  rewrite (predict_disease_scalar_body (demo_server None) demo_rng 5); [|lia].
  split; reflexivity.
Defined.

(** A list or a string that contains 'image' passes the guard and fails
    at the subscript. *)
Example predict_disease_list_body (srv : server) (g : rng) :
  status (predict_disease srv g (post (JArr [ JStr "image" ]))) = 500%Z /\
  status (predict_disease srv g (post (JStr "my image"))) = 500%Z /\
  status (predict_disease srv g (post (JArr [ JInt 1 ]))) = 400%Z.
Proof. repeat split; reflexivity. Qed.

(** For a body that is [None] or a JSON object the three outcomes are
    exactly: 400 without an 'image' key, 500 when a later step raises,
    200 otherwise. *)
Lemma predict_disease_object_body srv g req fields :
  method req <> OPTIONS ->
  get_json req = Ok (JObj fields) ->
  let resp := predict_disease srv g req in
  (status resp = 400%Z <-> dict_lookup "image" fields = None) /\
  (status resp = 500%Z <->
     exists image e, dict_lookup "image" fields = Some image /\
                     predict_result srv g image = Raise e) /\
  (status resp = 200%Z <->
     exists image r, dict_lookup "image" fields = Some image /\
                     predict_result srv g image = Ok r) /\
  (forall image e, dict_lookup "image" fields = Some image ->
                   predict_result srv g image = Raise e ->
                   body resp = Jsonify (JObj [ ("error", JStr (str e)) ])) /\
  (forall image r, dict_lookup "image" fields = Some image ->
                   predict_result srv g image = Ok r ->
                   body resp = Jsonify r) /\
  (dict_lookup "image" fields = None ->
   body resp = Jsonify (JObj [ ("error", JStr "No image provided") ])).
Proof.
  intros Hm Hj resp. subst resp.
  rewrite (predict_disease_try _ _ _ Hm), (try_block_object _ _ _ _ Hj).
  destruct (dict_lookup "image" fields) as [image|].
  - destruct (predict_result srv g image) as [r|e] eqn:E; simpl;
      repeat split; try discriminate; try congruence; eauto;
      try (intros (? & ? & [= <-] & ?); congruence);
      try (intros ? ? [= <-]; congruence).
  - simpl. repeat split; try discriminate; try congruence;
      intros (? & ? & ? & ?); congruence.
Qed.

Lemma body_field_confidence info name conf st hs :
  body_field "confidence"
    {| body := Jsonify (build_result info name conf); status := st; headers := hs |}
  = Some (JFloat (round2 (conf * 100))).
Proof. reflexivity. Qed.

Lemma body_field_disease info name conf st hs :
  body_field "disease"
    {| body := Jsonify (build_result info name conf); status := st; headers := hs |}
  = Some (dict_get info "name" (JStr name)).
Proof. reflexivity. Qed.

(** C2, as stated, fails: a loaded model whose arg-max output is 2 makes
    the handler report a confidence of 200 in a 200 response. *)
Lemma predict_disease_confidence_unbounded :
  let resp := predict_disease (demo_server (Some logit_model)) demo_rng demo_request in
  status resp = 200%Z /\
  exists q, body_field "confidence" resp = Some (JFloat q) /\ ~ (q <= 100)%Q.
Proof.
  split; [reflexivity|].
  exists (20000 # 100). split; [reflexivity|].
  unfold Qle; simpl; lia.
Qed.

(** C2, amended.  When every output row of the loaded model holds values
    between 0 and 1, no label is the empty string and every care record
    that has a name has a non-empty string there, a 200 response to a
    non-preflight request carries a confidence between 0 and 100 and a
    non-empty disease string; the confidence is [round(100 * c, 2)] for
    the raw confidence [c], which with a model loaded is the arg-max
    entry of the first output row. *)
Theorem predict_disease_confidence_and_name (srv : server) (g : rng) (req : request) :
  method req <> OPTIONS ->
  (forall m x predictions,
      model srv = Some m -> m x = Ok predictions ->
      Forall (Forall (fun p => (0 <= p)%Q /\ (p <= 1)%Q)) predictions) ->
  Forall (fun label => label <> "") (class_names srv) ->
  (forall key record v,
      DISEASE_INFO srv !! key = Some record ->
      dict_lookup "name" record = Some v ->
      exists s, v = JStr s /\ s <> "") ->
  status (predict_disease srv g req) = 200%Z ->
  exists (confidence : Q) (name : string) (request_json image : json)
         (x : image_batch) (label : string) (c : Q),
    body_field "confidence" (predict_disease srv g req) = Some (JFloat confidence) /\
    (0 <= confidence)%Q /\ (confidence <= 100)%Q /\
    body_field "disease" (predict_disease srv g req) = Some (JStr name) /\
    name <> "" /\
    get_json req = Ok request_json /\
    py_getitem request_json "image" = Ok image /\
    preprocess_image srv image = Ok x /\
    classify srv g x = Ok (label, c) /\
    confidence = round2 (c * 100) /\
    (forall m, model srv = Some m ->
       exists predictions row class_idx,
         m x = Ok predictions /\ predictions !! 0%nat = Some row /\
         argmax row = Ok class_idx /\ row !! class_idx = Some c /\
         Forall (fun p => (p <= c)%Q) row).
Proof.
  intros Hm Hprob Hlabels Hnames H200.
  destruct (predict_disease_200_inv _ _ _ Hm H200)
    as (rj & image & x & label & c & key & Hj & Hi & Hx & Hc & Hk & Hresp).
  rewrite Hresp.
  (* the raw confidence is a probability, the label is not empty *)
  assert (Hc01 : (0 <= c)%Q /\ (c <= 1)%Q /\ label <> "").
  { destruct (model srv) as [m|] eqn:Em.
    - destruct (classify_model_inv _ _ _ _ _ _ Em Hc)
        as (predictions & row & i & E1 & E2 & E3 & E4 & _ & Hl).
      pose proof (Hprob m x predictions eq_refl E1) as Hall.
      rewrite Forall_lookup in Hall. specialize (Hall _ _ E2).
      rewrite Forall_lookup in Hall. destruct (Hall _ _ E4) as [H0 H1].
      repeat split; auto.
      destruct (class_names srv !! i) as [n|] eqn:En; subst label; [|discriminate].
      rewrite Forall_lookup in Hlabels. exact (Hlabels _ _ En).
    - destruct (classify_fallback_inv _ _ _ _ _ Em Hc) as [Hin ->].
      destruct (random_uniform_range g (75 # 100) (95 # 100)) as [Ha Hb].
      { unfold Qle; simpl; lia. }
      repeat split; try lra.
      rewrite Forall_forall in Hlabels. now apply Hlabels. }
  destruct Hc01 as (H0 & H1 & Hlabel).
  destruct (round2_percentage c H0 H1) as [Hlo Hhi].
  assert (Hname : exists s, dict_get (care_record srv key (disease_name label)) "name"
                              (JStr (disease_name label)) = JStr s /\ s <> "").
  { unfold care_record.
    destruct (DISEASE_INFO srv !! key) as [record|] eqn:Er.
    - unfold dict_get. destruct (dict_lookup "name" record) as [v|] eqn:Ev.
      + exact (Hnames _ _ _ Er Ev).
      + eexists; split; [reflexivity|]. now apply disease_name_nonempty.
    - eexists; split; [reflexivity|]. now apply disease_name_nonempty. }
  destruct Hname as (s & Hs & Hne).
  exists (round2 (c * 100)), s, rj, image, x, label, c.
  rewrite body_field_confidence, body_field_disease, Hs.
  repeat split; auto.
  intros m Em.
  destruct (classify_model_inv _ _ _ _ _ _ Em Hc)
    as (predictions & row & i & E1 & E2 & E3 & E4 & E5 & _).
  exists predictions, row, i. auto.
Qed.

Lemma demo_table_names (m : option keras_model) key record v :
  DISEASE_INFO (demo_server m) !! key = Some record ->
  dict_lookup "name" record = Some v ->
  exists s, v = JStr s /\ s <> "".
Proof.
  simpl. unfold demo_table. intros H.
  apply lookup_singleton_Some in H as [_ <-]. simpl.
  intros [= <-]. eexists; split; [reflexivity|discriminate].
Defined.

Lemma predict_disease_confidence_and_name_witness :
  exists (confidence : Q) (name : string),
    body_field "confidence"
      (predict_disease (demo_server (Some softmax_model)) demo_rng demo_request)
    = Some (JFloat confidence) /\
    (0 <= confidence)%Q /\ (confidence <= 100)%Q /\
    body_field "disease"
      (predict_disease (demo_server (Some softmax_model)) demo_rng demo_request)
    = Some (JStr name) /\
    name <> "".
Proof.
  destruct (predict_disease_confidence_and_name
              (demo_server (Some softmax_model)) demo_rng demo_request)
    as (q & name & _ & _ & _ & _ & _ & H1 & H2 & H3 & H4 & H5 & _).
  - discriminate.
  - intros m x predictions [= <-] [= <-].
    repeat constructor; unfold Qle; simpl; lia.
  - repeat constructor; discriminate.
  - apply demo_table_names.
  - reflexivity.
  - exists q, name. auto.
Defined.




(** The response for a class whose key the table lacks. *)
Lemma predict_disease_absent_key srv g req fields image x label conf key :
  method req <> OPTIONS ->
  get_json req = Ok (JObj fields) ->
  dict_lookup "image" fields = Some image ->
  preprocess_image srv image = Ok x ->
  classify srv g x = Ok (label, conf) ->
  disease_key label = Ok key ->
  DISEASE_INFO srv !! key = None ->
  predict_disease srv g req
  = {| body := Jsonify (build_result (generic_record (disease_name label))
                                     (disease_name label) conf);
       status := 200; headers := cors_headers |}.
Proof.
  intros Hm Hj Hi Hx Hc Hk Habsent.
  rewrite (predict_disease_ok _ _ _ _ _ _ _ _ _ Hm Hj Hi Hx Hc Hk).
  unfold care_record. now rewrite Habsent.
Qed.

(** C4.  When the lookup key of the predicted class is not in the
    disease-info table, the response is built from the generic record:
    the display name derived from the class name, severity 'Medium' and
    the three fixed four-element lists. *)
Theorem predict_disease_generic_record (srv : server) (g : rng) (req : request)
    (fields : dict) (image : json) (x : image_batch)
    (label : string) (conf : Q) (key : string) :
  method req <> OPTIONS ->
  get_json req = Ok (JObj fields) ->
  dict_lookup "image" fields = Some image ->
  preprocess_image srv image = Ok x ->
  classify srv g x = Ok (label, conf) ->
  disease_key label = Ok key ->
  DISEASE_INFO srv !! key = None ->
  predict_disease srv g req
  = {| body := Jsonify (JObj
         [ ("disease", JStr (PyStr.replace "_" " " (PyStr.replace "___" " - " label)));
           ("confidence", JFloat (round2 (conf * 100)));
           ("severity", JStr "Medium");
           ("symptoms", JArr [ JStr "Leaf discoloration or spots";
                               JStr "Wilting or drooping leaves";
                               JStr "Stunted growth";
                               JStr "Unusual leaf patterns" ]);
           ("treatment", JArr [ JStr "Remove affected plant parts";
                                JStr "Apply appropriate fungicide or pesticide";
                                JStr "Improve air circulation around plants";
                                JStr "Ensure proper watering schedule" ]);
           ("prevention", JArr [ JStr "Use disease-resistant varieties";
                                 JStr "Practice crop rotation";
                                 JStr "Maintain proper plant spacing";
                                 JStr "Monitor plants regularly for early detection" ]) ]);
       status := 200; headers := [ ("Access-Control-Allow-Origin", "*") ] |}.
Proof.
  intros Hm Hj Hi Hx Hc Hk Habsent.
  rewrite (predict_disease_absent_key _ _ _ _ _ _ _ _ _ Hm Hj Hi Hx Hc Hk Habsent).
  reflexivity.
Qed.

Lemma predict_disease_generic_record_witness :
  DISEASE_INFO (demo_server None) !! "Early_blight" = None /\
  body_field "disease" (predict_disease (demo_server None) demo_rng demo_request)
  = Some (JStr "Potato - Early blight") /\
  body_field "severity" (predict_disease (demo_server None) demo_rng demo_request)
  = Some (JStr "Medium") /\
  body_field "symptoms" (predict_disease (demo_server None) demo_rng demo_request)
  = Some (strings [ "Leaf discoloration or spots"; "Wilting or drooping leaves";
                    "Stunted growth"; "Unusual leaf patterns" ]).
Proof.
  rewrite (predict_disease_generic_record (demo_server None) demo_rng demo_request
             [("image", JStr "iVBORw0KGgo=")] (JStr "iVBORw0KGgo=")
             [[[[ 1 # 2; 1 # 2; 1 # 2 ]]]]
             "Potato___Early_blight" (random_uniform demo_rng (75 # 100) (95 # 100))
             "Early_blight");
    try reflexivity; try discriminate.
  repeat split; reflexivity.
Defined.

(** C9.  With a model loaded, an arg-max index at or beyond the end of
    the label set raises nothing: the class becomes 'Unknown' and, the
    table having no 'Unknown' entry, the 200 response is built from the
    generic record. *)
Theorem predict_disease_unknown_class (srv : server) (g : rng) (req : request)
    (fields : dict) (image : json) (x : image_batch)
    (m : keras_model) (predictions : list (list Q)) (row : list Q) (class_idx : nat) :
  method req <> OPTIONS ->
  get_json req = Ok (JObj fields) ->
  dict_lookup "image" fields = Some image ->
  preprocess_image srv image = Ok x ->
  model srv = Some m ->
  m x = Ok predictions ->
  predictions !! 0%nat = Some row ->
  argmax row = Ok class_idx ->
  (length (class_names srv) <= class_idx)%nat ->
  DISEASE_INFO srv !! "Unknown" = None ->
  exists conf : Q,
    row !! class_idx = Some conf /\
    classify srv g x = Ok ("Unknown", conf) /\
    disease_key "Unknown" = Ok "Unknown" /\
    care_record srv "Unknown" (disease_name "Unknown") = generic_record "Unknown" /\
    predict_disease srv g req
    = {| body := Jsonify (JObj
           [ ("disease", JStr "Unknown");
             ("confidence", JFloat (round2 (conf * 100)));
             ("severity", JStr "Medium");
             ("symptoms", JArr [ JStr "Leaf discoloration or spots";
                                 JStr "Wilting or drooping leaves";
                                 JStr "Stunted growth";
                                 JStr "Unusual leaf patterns" ]);
             ("treatment", JArr [ JStr "Remove affected plant parts";
                                  JStr "Apply appropriate fungicide or pesticide";
                                  JStr "Improve air circulation around plants";
                                  JStr "Ensure proper watering schedule" ]);
             ("prevention", JArr [ JStr "Use disease-resistant varieties";
                                   JStr "Practice crop rotation";
                                   JStr "Maintain proper plant spacing";
                                   JStr "Monitor plants regularly for early detection" ]) ]);
         status := 200; headers := [ ("Access-Control-Allow-Origin", "*") ] |}.
Proof.
  intros Hm Hj Hi Hx Hmodel Hp Hrow Hmax Hge Habsent.
  destruct (argmax_spec _ _ Hmax) as (conf & Hconf & _).
  assert (Hc : classify srv g x = Ok ("Unknown", conf)).
  { unfold classify, py_index. rewrite Hmodel, Hp; simpl.
    rewrite Hrow; simpl. rewrite Hmax; simpl. rewrite Hconf; simpl.
    apply Nat.ltb_ge in Hge. now rewrite Hge. }
  exists conf. repeat split; auto.
  - unfold care_record. now rewrite Habsent.
  - now rewrite (predict_disease_absent_key _ _ _ _ _ _ _ _ "Unknown"
                   Hm Hj Hi Hx Hc eq_refl Habsent).
Qed.

Lemma predict_disease_unknown_class_witness :
  (length (class_names (demo_server (Some wide_model))) <= 6)%nat /\
  status (predict_disease (demo_server (Some wide_model)) demo_rng demo_request) = 200%Z /\
  body_field "disease" (predict_disease (demo_server (Some wide_model)) demo_rng demo_request)
  = Some (JStr "Unknown") /\
  body_field "severity" (predict_disease (demo_server (Some wide_model)) demo_rng demo_request)
  = Some (JStr "Medium").
Proof.
  destruct (predict_disease_unknown_class (demo_server (Some wide_model)) demo_rng
              demo_request [("image", JStr "iVBORw0KGgo=")] (JStr "iVBORw0KGgo=")
              [[[[ 1 # 2; 1 # 2; 1 # 2 ]]]] wide_model
              [[ 1 # 10; 0%Q; 0%Q; 0%Q; 0%Q; 1 # 10; 8 # 10 ]]
              [ 1 # 10; 0%Q; 0%Q; 0%Q; 0%Q; 1 # 10; 8 # 10 ] 6)
    as (conf & _ & _ & _ & _ & ->);
    try reflexivity; try discriminate.
  - simpl; lia.
  - repeat split; try reflexivity. simpl; lia.
Defined.

(** C10.  The lookup key is the class name itself when it has no '___';
    otherwise it is the segment that follows the first '___' (up to the
    next '___' or the end), so class names with the same segment have the
    same key and reach the same entry of the table. *)
Theorem disease_key_segment_only :
  (forall c : string, PyStr.contains "___" c = false -> disease_key c = Ok c) /\
  (forall (c : string) (i : nat),
      PyStr.find "___" c = Some i ->
      disease_key c
      = Ok (let rest := PyStr.drop (i + 3) c in
            match PyStr.find "___" rest with
            | Some j => PyStr.take j rest
            | None => rest
            end)) /\
  (forall (srv : server) (c1 c2 key : string),
      disease_key c1 = Ok key ->
      disease_key c2 = Ok key ->
      forall record : dict,
        DISEASE_INFO srv !! key = Some record ->
        care_record srv key (disease_name c1) = record /\
        care_record srv key (disease_name c2) = record /\
        (forall (name : json) (conf : Q),
            dict_lookup "name" record = Some name ->
            describe srv c1 conf = describe srv c2 conf)).
Proof.
  split; [|split].
  - intros c Hc. apply disease_key_plain.
    unfold PyStr.contains in Hc. now destruct (PyStr.find "___" c).
  - exact disease_key_segment.
  - intros srv c1 c2 key Hk1 Hk2 record Hr.
    unfold care_record. rewrite Hr. repeat split.
    intros name conf Hname. unfold describe. rewrite Hk1, Hk2. simpl.
    unfold care_record, build_result, dict_get. now rewrite Hr, Hname.
Qed.

Lemma disease_key_segment_only_witness :
  disease_key "healthy" = Ok "healthy" /\
  disease_key "Tomato___Late_blight" = Ok "Late_blight" /\
  disease_key "Potato___Late_blight" = Ok "Late_blight" /\
  care_record (demo_server None) "Late_blight" (disease_name "Tomato___Late_blight")
  = late_blight_record /\
  care_record (demo_server None) "Late_blight" (disease_name "Potato___Late_blight")
  = late_blight_record.
Proof.
  destruct disease_key_segment_only as (Hplain & Hseg & Hsame).
  split; [apply Hplain; reflexivity|].
  split; [apply (Hseg "Tomato___Late_blight" 6%nat); reflexivity|].
  split; [apply (Hseg "Potato___Late_blight" 6%nat); reflexivity|].
  destruct (Hsame (demo_server None) "Tomato___Late_blight" "Potato___Late_blight"
                  "Late_blight" eq_refl eq_refl late_blight_record eq_refl)
    as (H1 & H2 & _).
  split; assumption.
Defined.

(** ** Claims about cold start and CORS *)

(** C5, as stated, fails: when the download of the model objects raises,
    the exception leaves the module and startup fails. *)
Lemma bootstrap_download_failure :
  bootstrap demo_preprocess
    {| read_disease_info := Ok demo_table;
       download_model_files := Raise (Exn "ServiceUnavailable" "503 GET storage.googleapis.com");
       load_model := Ok softmax_model;
       fetch_class_names := Ok fallback_class_names |}
  = Raise (Exn "ServiceUnavailable" "503 GET storage.googleapis.com").
Proof. reflexivity. Qed.

(** C5, amended.  Once the table is read and the model objects are
    downloaded, startup succeeds whatever loading the network and
    fetching the label list do: a load failure leaves no model, a label
    fetch failure leaves the five fallback labels. *)
Theorem bootstrap_degrades (pre : json -> result image_batch) (w : cold_start)
    (info : gmap string dict) :
  read_disease_info w = Ok info ->
  download_model_files w = Ok tt ->
  exists srv : server,
    bootstrap pre w = Ok srv /\
    DISEASE_INFO srv = info /\
    (forall e, load_model w = Raise e -> model srv = None) /\
    (forall m, load_model w = Ok m -> model srv = Some m) /\
    (forall e, fetch_class_names w = Raise e ->
               class_names srv
               = [ "Tomato___Late_blight"; "Corn___Common_rust"; "Potato___Early_blight";
                   "Apple___Apple_scab"; "Grape___Black_rot" ]) /\
    (forall names, fetch_class_names w = Ok names -> class_names srv = names).
Proof.
  intros Hinfo Hdl. unfold bootstrap. rewrite Hinfo, Hdl. simpl.
  eexists; split; [reflexivity|]. simpl.
  repeat split.
  - now intros e ->.
  - now intros m ->.
  - now intros e ->.
  - now intros names ->.
Qed.

Lemma bootstrap_degrades_witness :
  exists srv : server,
    bootstrap demo_preprocess
      {| read_disease_info := Ok demo_table;
         download_model_files := Ok tt;
         load_model := Raise (Exn "OSError" "SavedModel file does not exist at: /tmp/model");
         fetch_class_names := Raise (Exn "NotFound" "404 class_names.json") |}
    = Ok srv /\
    model srv = None /\ length (class_names srv) = 5%nat.
Proof.
  destruct (bootstrap_degrades demo_preprocess
              {| read_disease_info := Ok demo_table;
                 download_model_files := Ok tt;
                 load_model := Raise (Exn "OSError" "SavedModel file does not exist at: /tmp/model");
                 fetch_class_names := Raise (Exn "NotFound" "404 class_names.json") |}
              demo_table eq_refl eq_refl)
    as (srv & Hb & _ & Hload & _ & Hnames & _).
  exists srv. split; [exact Hb|]. split.
  - exact (Hload _ eq_refl).
  - rewrite (Hnames _ eq_refl). reflexivity.
Defined.

(** C6, as stated, fails: the response of [GET /health] sets no
    'Access-Control-Allow-Origin' header. *)
Lemma health_check_without_cors :
  status (health_check (demo_server None)) = 200%Z /\
  header "Access-Control-Allow-Origin" (headers (health_check (demo_server None))) = None.
Proof. split; reflexivity. Qed.

(** C6, amended.  [OPTIONS /predict] answers 204 with an empty body and
    the four permissive CORS headers, and every other response of
    [predict_disease] (200, 400 and 500) carries
    'Access-Control-Allow-Origin: *'. *)
Theorem predict_disease_cors (srv : server) (g : rng) :
  (forall outcome : result json,
      predict_disease srv g {| method := OPTIONS; get_json := outcome |}
      = {| body := Text ""; status := 204;
           headers := [ ("Access-Control-Allow-Origin", "*");
                        ("Access-Control-Allow-Methods", "POST");
                        ("Access-Control-Allow-Headers", "Content-Type");
                        ("Access-Control-Max-Age", "3600") ] |}) /\
  (forall req : request,
      header "Access-Control-Allow-Origin" (headers (predict_disease srv g req)) = Some "*" /\
      (method req <> OPTIONS ->
       headers (predict_disease srv g req) = [ ("Access-Control-Allow-Origin", "*") ] /\
       (status (predict_disease srv g req) = 200%Z \/
        status (predict_disease srv g req) = 400%Z \/
        status (predict_disease srv g req) = 500%Z))).
Proof.
  split; [reflexivity|].
  intros req.
  assert (Htry : forall resp, try_block srv g req = Ok resp ->
                   headers resp = cors_headers /\ (status resp = 200%Z \/ status resp = 400%Z)).
  { unfold try_block. intros resp H.
    destruct (get_json req) as [rj|]; simpl in H; [|discriminate].
    destruct (negb (truthy rj)); simpl in H.
    { injection H as <-. auto. }
    destruct (py_in "image" rj) as [present|]; simpl in H; [|discriminate].
    destruct present; simpl in H.
    - destruct (py_getitem rj "image") as [image|]; simpl in H; [|discriminate].
      destruct (predict_result srv g image) as [r|]; simpl in H; [|discriminate].
      injection H as <-. auto.
    - injection H as <-. auto. }
  assert (Hpost : method req <> OPTIONS ->
            headers (predict_disease srv g req) = cors_headers /\
            (status (predict_disease srv g req) = 200%Z \/
             status (predict_disease srv g req) = 400%Z \/
             status (predict_disease srv g req) = 500%Z)).
  { intros Hm. rewrite (predict_disease_try _ _ _ Hm).
    destruct (try_block srv g req) as [resp|e] eqn:E.
    - destruct (Htry _ eq_refl) as [Hh [Hs|Hs]]; auto.
    - simpl. auto. }
  split; [|exact Hpost].
  destruct (method req) eqn:Em.
  - destruct Hpost as [-> _]; [congruence|reflexivity].
  - destruct Hpost as [-> _]; [congruence|reflexivity].
  - unfold predict_disease. now rewrite Em.
Qed.

Lemma predict_disease_cors_witness :
  headers (predict_disease (demo_server None) demo_rng (post (JObj [])))
  = [ ("Access-Control-Allow-Origin", "*") ] /\
  status (predict_disease (demo_server None) demo_rng (post (JObj []))) = 400%Z.
Proof.
  destruct (predict_disease_cors (demo_server None) demo_rng) as [_ H].
  destruct (H (post (JObj []))) as [_ Hpost].
  destruct Hpost as [Hh _]; [discriminate|].
  split; [exact Hh|reflexivity].
Defined.

(** ** Claims about dataset preparation and training *)

Module DatasetFacts.
Import PyStr Dataset.

(** [find_dir] succeeds exactly when the name is among [dirs]. *)
Lemma find_dir_dir_names (name : string) (children : list tree) :
  (exists t, find_dir name children = Some t) <-> name ∈ dir_names children.
Proof.
  induction children as [|[f|n cs] rest IH]; simpl.
  - split; [intros [t [=]]|intros H; inversion H].
  - exact IH.
  - destruct (String.eqb_spec n name) as [->|Hne].
    + split; [intros _; apply list_elem_of_here|eauto].
    + rewrite IH. split; [apply list_elem_of_further|].
      intros H. inversion H; subst; [congruence|assumption].
Qed.

Lemma take_drop n s : take n s +:+ drop n s = s.
Proof.
  revert s; induction n as [|n IH]; intros [|c s]; simpl; auto.
  change (String c (take n s +:+ drop n s) = String c s). now rewrite IH.
Qed.

Lemma last_char_app a b : b <> "" -> last_char (a +:+ b) = last_char b.
Proof.
  intros Hb. induction a as [|c a IH]; [reflexivity|].
  change (last_char (String c (a +:+ b)) = last_char b).
  pose proof (PyStrFacts.append_nonempty_r a b Hb) as Hab.
  simpl. rewrite IH. now destruct (a +:+ b).
Qed.

Lemma endswith_last_char suffix s :
  suffix <> "" -> endswith suffix s = true -> last_char s = last_char suffix.
Proof.
  intros Hne H. unfold endswith in H.
  apply andb_true_iff in H as [_ H]. apply String.eqb_eq in H.
  rewrite <- (take_drop (String.length s - String.length suffix) s), H.
  now apply last_char_app.
Qed.

(** An object whose name ends in an upper-case image suffix gets no row
    in the manifest. *)
Lemma csv_line_upper_case (name : string) :
  endswith_any [".JPG"; ".JPEG"; ".PNG"] name = true -> csv_line name = [].
Proof.
  intros H. unfold csv_line.
  assert (Hlast : last_char name = Some "G"%char).
  { simpl in H. rewrite orb_false_r in H.
    apply orb_true_iff in H as [H|H]; [|apply orb_true_iff in H as [H|H]];
      apply endswith_last_char in H; (discriminate || exact H). }
  assert (Hno : endswith_any manifest_suffixes name = false).
  { unfold manifest_suffixes. simpl. rewrite orb_false_r.
    apply orb_false_iff; split; [|apply orb_false_iff; split];
      (destruct (endswith _ name) eqn:E; [|reflexivity]);
      apply endswith_last_char in E; try discriminate;
      rewrite Hlast in E; discriminate. }
  now rewrite Hno.
Qed.

End DatasetFacts.

(** C7.  A dataset with one training image, [train/Tomato___healthy/leaf1.JPG]:
    the upload stores it under the key the scheme prescribes and counts
    one file, and the manifest built from that bucket has no row. *)
Theorem manifest_misses_uploaded_image :
  let uploaded := Dataset.upload_to_gcs "/" "/data" demo_dataset ∅ in
  snd uploaded = [ ("train", 1%nat) ] /\
  map_to_list (fst uploaded)
  = [ ("datasets/plantvillage/train/Tomato___healthy/leaf1.JPG",
       "/data/train/Tomato___healthy/leaf1.JPG") ] /\
  Dataset.training_images (fst uploaded)
  = [ "datasets/plantvillage/train/Tomato___healthy/leaf1.JPG" ] /\
  Dataset.create_dataset_csv (fst uploaded) = [].
Proof. vm_compute. repeat split; reflexivity. Qed.

Module TrainRunFacts.
Import Train.

(** A fit never runs more epochs than its range has. *)
Lemma fit_loop_le patience val_loss remaining :
  forall epoch best wait,
    (fit_loop patience val_loss remaining epoch best wait <= epoch + remaining)%nat.
Proof.
  induction remaining as [|remaining IH]; intros epoch best wait; simpl; [lia|].
  destruct (is_improvement (val_loss epoch) best).
  - specialize (IH (S epoch) (Some (val_loss epoch)) O). lia.
  - destruct (patience <=? S wait)%nat; [lia|].
    specialize (IH (S epoch) best (S wait)). lia.
Qed.

(** It runs the whole range when the loss improves at every epoch. *)
Lemma fit_loop_improving patience val_loss remaining :
  (forall n, (val_loss (S n) < val_loss n)%Q) ->
  forall epoch best wait,
    is_improvement (val_loss epoch) best = true ->
    fit_loop patience val_loss remaining epoch best wait = (epoch + remaining)%nat.
Proof.
  intros Hdec. induction remaining as [|remaining IH]; intros epoch best wait Himp; simpl; [lia|].
  rewrite Himp, IH; [lia|]. simpl.
  destruct (Qle_bool (val_loss epoch) (val_loss (S epoch))) eqn:E; [|reflexivity].
  apply Qle_bool_iff in E. specialize (Hdec epoch). lra.
Qed.

(** It runs the whole range when the range is no longer than the
    patience plus one: the first epoch always improves on infinity. *)
Lemma fit_loop_short patience val_loss remaining :
  forall epoch best wait,
    (epoch + remaining <= S patience)%nat ->
    (epoch = O /\ best = None) \/ (wait < epoch)%nat ->
    fit_loop patience val_loss remaining epoch best wait = (epoch + remaining)%nat.
Proof.
  induction remaining as [|remaining IH]; intros epoch best wait Hlen Hinv; simpl; [lia|].
  destruct (is_improvement (val_loss epoch) best) eqn:Himp.
  - rewrite IH; [lia|lia|right; lia].
  - destruct Hinv as [[_ ->]|Hwait]; [discriminate|].
    destruct (Nat.leb_spec patience (S wait)) as [Hstop|Hgo]; [lia|].
    rewrite IH; [lia|lia|right; lia].
Qed.

End TrainRunFacts.

(** C8, as stated, fails: with 50 epochs and a validation loss that never
    improves after the first epoch, [EarlyStopping] ends each phase after
    6 epochs, not after 50 // 2 = 25. *)
Lemma train_model_stops_early :
  let a := {| Train.epochs := 50; Train.batch_size := 32;
              Train.learning_rate := 1 # 1000 |} in
  map Train.fit_epochs (Train.train_model a) = [ 25%Z; 25%Z ] /\
  map (fun call => Train.epochs_run call (fun _ => 1%Q)) (Train.train_model a)
  = [ 6%nat; 6%nat ].
Proof. split; reflexivity. Qed.

(** A negative [epochs] gives both calls a negative [epochs] argument,
    and no epoch is run. *)
Example train_model_negative_epochs :
  let a := {| Train.epochs := -3; Train.batch_size := 32;
              Train.learning_rate := 1 # 1000 |} in
  map Train.fit_epochs (Train.train_model a) = [ (-2)%Z; (-2)%Z ] /\
  map (fun call => Train.epochs_run call (fun n => 1 # Pos.of_succ_nat n))
      (Train.train_model a) = [ 0%nat; 0%nat ].
Proof. split; reflexivity. Qed.

(** C8, amended.  The two [fit] calls get [epochs // 2] as their [epochs]
    argument, the first with the backbone frozen and the second with it
    trainable, both under [EarlyStopping] with patience 5; the arguments
    add up to [2 * (epochs // 2)], one less than [epochs] when [epochs] is
    odd.  A phase never runs more than [max(0, epochs // 2)] epochs; it
    runs exactly that many when the validation loss improves at every
    epoch or when [epochs // 2] is at most 6. *)
Theorem train_model_epoch_split (a : Train.args) :
  map Train.fit_epochs (Train.train_model a)
  = [ (Train.epochs a / 2)%Z; (Train.epochs a / 2)%Z ] /\
  map Train.backbone_trainable (Train.train_model a) = [ false; true ] /\
  map (fun call => Train.early_stopping_patience (Train.fit_callbacks call))
      (Train.train_model a) = [ 5%nat; 5%nat ] /\
  Train.total_epochs (Train.train_model a) = (2 * (Train.epochs a / 2))%Z /\
  (Z.odd (Train.epochs a) = true ->
   Train.total_epochs (Train.train_model a) = (Train.epochs a - 1)%Z) /\
  (Z.even (Train.epochs a) = true ->
   Train.total_epochs (Train.train_model a) = Train.epochs a) /\
  (forall (call : Train.fit_call) (val_loss : nat -> Q),
      call ∈ Train.train_model a ->
      (Train.epochs_run call val_loss <= Z.to_nat (Train.epochs a / 2))%nat /\
      ((forall n, (val_loss (S n) < val_loss n)%Q) ->
       Train.epochs_run call val_loss = Z.to_nat (Train.epochs a / 2)) /\
      ((Train.epochs a / 2 <= 6)%Z ->
       Train.epochs_run call val_loss = Z.to_nat (Train.epochs a / 2))).
Proof.
  split; [reflexivity|]. split; [reflexivity|]. split; [reflexivity|].
  assert (Htotal : Train.total_epochs (Train.train_model a) = (2 * (Train.epochs a / 2))%Z)
    by (unfold Train.total_epochs; simpl; lia).
  split; [exact Htotal|]. rewrite Htotal. split; [|split].
  - intros Hodd. rewrite (Zdiv2_odd_eqn (Train.epochs a)) at 2.
    rewrite Hodd, Z.div2_div. lia.
  - intros Heven. rewrite (Zdiv2_odd_eqn (Train.epochs a)) at 2.
    rewrite <- Z.negb_even, Heven, Z.div2_div. simpl. lia.
  - intros call val_loss Hcall.
    assert (Hcase : Train.fit_epochs call = (Train.epochs a / 2)%Z /\
                    Train.fit_callbacks call = Train.model_callbacks).
    { unfold Train.train_model in Hcall. rewrite !elem_of_cons in Hcall.
      destruct Hcall as [->|[->|Hcall]]; [split; reflexivity|split; reflexivity|].
      inversion Hcall. }
    destruct Hcase as [He Hc]. unfold Train.epochs_run. rewrite He, Hc.
    split; [|split].
    + apply (TrainRunFacts.fit_loop_le _ _ _ O None O).
    + intros Hdec. now apply TrainRunFacts.fit_loop_improving.
    + intros Hshort. apply TrainRunFacts.fit_loop_short; [|left; split; reflexivity].
      change (Train.early_stopping_patience Train.model_callbacks) with 5%nat. lia.
Qed.

Lemma train_model_epoch_split_witness :
  let a := {| Train.epochs := 11; Train.batch_size := 32;
              Train.learning_rate := 1 # 1000 |} in
  Train.total_epochs (Train.train_model a) = 10%Z /\
  map (fun call => Train.epochs_run call (fun n => 1 # Pos.of_succ_nat n))
      (Train.train_model a) = [ 5%nat; 5%nat ] /\
  map (fun call => Train.epochs_run call (fun _ => 1%Q)) (Train.train_model a)
  = [ 5%nat; 5%nat ].
Proof.
  intros a.
  destruct (train_model_epoch_split a) as (_ & _ & _ & _ & Hodd & _ & Hrun).
  split; [exact (Hodd eq_refl)|].
  split; reflexivity.
Defined.

(** ** One-character separators *)

Module PyCharFacts.
Import PyStr PyChar.

Lemma find_char_cons (c x : ascii) (s : string) :
  find (String c "") (String x s)
  = if Ascii.eqb c x then Some O else option_map S (find (String c "") s).
Proof. simpl. now destruct (Ascii.eqb c x). Qed.

Lemma find_char_nil (c : ascii) : find (String c "") "" = None.
Proof. reflexivity. Qed.

Lemma append_cons (x : ascii) (a b : string) : String x a +:+ b = String x (a +:+ b).
Proof. reflexivity. Qed.

Lemma append_nil_l (b : string) : "" +:+ b = b.
Proof. reflexivity. Qed.

Lemma append_assoc (a b c : string) : (a +:+ b) +:+ c = a +:+ (b +:+ c).
Proof. induction a as [|x a IH]; [reflexivity|]. rewrite !append_cons. now rewrite IH. Qed.

Lemma append_nil_r (a : string) : a +:+ "" = a.
Proof. induction a as [|x a IH]; [reflexivity|]. rewrite append_cons. now rewrite IH. Qed.

(** Absence of a character in a concatenation. *)
Lemma find_char_app_none (c : ascii) (a b : string) :
  find (String c "") (a +:+ b) = None <->
  find (String c "") a = None /\ find (String c "") b = None.
Proof.
  induction a as [|x a IH].
  - rewrite append_nil_l, find_char_nil. tauto.
  - rewrite append_cons, !find_char_cons.
    destruct (Ascii.eqb c x); [split; [discriminate|intros [[=] _]]|].
    assert (Hmap : forall o : option nat, option_map S o = None <-> o = None)
      by (intros [n|]; simpl; split; congruence).
    now rewrite !Hmap, IH.
Qed.

Lemma split_char_nonempty (c : ascii) (s : string) : split_char c s <> [].
Proof.
  destruct s as [|x s]; simpl; [discriminate|].
  destruct (Ascii.eqb c x); [discriminate|].
  destruct (split_char c s); discriminate.
Qed.

Lemma replace_unfold (old new s : string) :
  replace old new s
  = match find old s with
    | None => s
    | Some i => take i s +:+ new +:+ replace_fuel (String.length s) old new
                                                  (drop (i + String.length old) s)
    end.
Proof. reflexivity. Qed.

Lemma split_unfold (sep s : string) :
  split sep s
  = match find sep s with
    | None => [s]
    | Some i => take i s :: split_fuel (String.length s) sep (drop (i + String.length sep) s)
    end.
Proof. reflexivity. Qed.

(** [replace] with a one-character pattern is the character-wise
    substitution. *)
Lemma replace_char (c : ascii) (new s : string) :
  replace (String c "") new s = subst_char c new s.
Proof.
  induction s as [|x s IH]; [reflexivity|].
  rewrite replace_unfold, find_char_cons.
  change (subst_char c new (String x s))
    with (if Ascii.eqb c x then new +:+ subst_char c new s
          else String x (subst_char c new s)).
  destruct (Ascii.eqb c x).
  - change (take 0 (String x s)) with "".
    change (drop (0 + String.length (String c "")) (String x s)) with s.
    change (replace_fuel (String.length (String x s)) (String c "") new s)
      with (replace (String c "") new s).
    now rewrite IH, append_nil_l.
  - rewrite <- IH, replace_unfold.
    destruct (find (String c "") s) as [i|] eqn:E; [|reflexivity].
    change (option_map S (Some i)) with (Some (S i)). cbv beta iota.
    change (take (S i) (String x s)) with (String x (take i s)).
    change (drop (S i + String.length (String c "")) (String x s))
      with (drop (i + String.length (String c "")) s).
    rewrite append_cons. do 3 f_equal.
    apply PyStrFacts.find_bound in E.
    change (String.length (String c "")) with 1%nat in *.
    rewrite !PyStrFacts.replace_fuel_stable;
      try discriminate; try reflexivity; rewrite PyStrFacts.length_drop; simpl; lia.
Qed.

(** [split] with a one-character separator is the character-wise
    split. *)
Lemma split_is_split_char (c : ascii) (s : string) :
  split (String c "") s = split_char c s.
Proof.
  induction s as [|x s IH]; [reflexivity|].
  rewrite split_unfold, find_char_cons.
  change (split_char c (String x s))
    with (if Ascii.eqb c x then "" :: split_char c s
          else match split_char c s with
               | h :: t => String x h :: t
               | [] => [String x ""]
               end).
  destruct (Ascii.eqb c x).
  - change (take 0 (String x s)) with "".
    change (drop (0 + String.length (String c "")) (String x s)) with s.
    change (split_fuel (String.length (String x s)) (String c "") s)
      with (split (String c "") s).
    now rewrite IH.
  - rewrite <- IH, split_unfold.
    destruct (find (String c "") s) as [i|] eqn:E; [|reflexivity].
    change (option_map S (Some i)) with (Some (S i)). cbv beta iota.
    change (take (S i) (String x s)) with (String x (take i s)).
    change (drop (S i + String.length (String c "")) (String x s))
      with (drop (i + String.length (String c "")) s).
    f_equal.
    apply PyStrFacts.find_bound in E.
    change (String.length (String c "")) with 1%nat in *.
    rewrite !PyStrFacts.split_fuel_stable;
      try discriminate; try reflexivity; rewrite PyStrFacts.length_drop; simpl; lia.
Qed.

Lemma subst_char_app (c : ascii) (new a b : string) :
  subst_char c new (a +:+ b) = subst_char c new a +:+ subst_char c new b.
Proof.
  induction a as [|x a IH]; [reflexivity|].
  rewrite append_cons. simpl. rewrite IH.
  destruct (Ascii.eqb c x); [now rewrite append_assoc|reflexivity].
Qed.

Lemma subst_char_absent (c : ascii) (new s : string) :
  find (String c "") s = None -> subst_char c new s = s.
Proof.
  induction s as [|x s IH]; [reflexivity|].
  rewrite find_char_cons. simpl.
  destruct (Ascii.eqb c x); [discriminate|].
  destruct (find (String c "") s); [discriminate|]. intros _. now rewrite IH.
Qed.

(** After the substitution the character is gone, unless the
    replacement brings it back. *)
Lemma subst_char_removes (c : ascii) (new s : string) :
  find (String c "") new = None ->
  find (String c "") (subst_char c new s) = None.
Proof.
  intros Hnew. induction s as [|x s IH]; [reflexivity|]. simpl.
  destruct (Ascii.eqb c x) eqn:E.
  - apply find_char_app_none. auto.
  - rewrite find_char_cons, E, IH. reflexivity.
Qed.

Lemma split_char_app (c : ascii) (a b : string) :
  split_char c (a +:+ String c b) = split_char c a ++ split_char c b.
Proof.
  induction a as [|x a IH].
  - rewrite append_nil_l. simpl. now rewrite Ascii.eqb_refl.
  - rewrite append_cons. simpl. rewrite IH.
    destruct (Ascii.eqb c x); [reflexivity|].
    pose proof (split_char_nonempty c a).
    now destruct (split_char c a).
Qed.

Lemma split_char_absent (c : ascii) (s : string) :
  find (String c "") s = None -> split_char c s = [s].
Proof.
  induction s as [|x s IH]; [reflexivity|].
  rewrite find_char_cons. simpl.
  destruct (Ascii.eqb c x); [discriminate|].
  destruct (find (String c "") s); [discriminate|]. intros _. now rewrite IH.
Qed.

Lemma startswith_app (p s : string) :
  startswith p s = true <-> exists r, s = p +:+ r.
Proof.
  revert s; induction p as [|a p IH]; intros s.
  - split; [intros _; exists s; reflexivity|reflexivity].
  - destruct s as [|b s]; simpl.
    + split; [discriminate|intros [r [=]]].
    + destruct (Ascii.eqb_spec a b) as [->|Hne].
      * rewrite IH. split; intros [r Hr]; exists r.
        -- now rewrite append_cons, Hr.
        -- rewrite append_cons in Hr. now injection Hr.
      * split; [discriminate|]. intros [r Hr]. rewrite append_cons in Hr. congruence.
Qed.

Lemma startswith_refl_app (p r : string) : startswith p (p +:+ r) = true.
Proof. apply startswith_app. eauto. Qed.

Lemma startswith_take (p s : string) (n : nat) :
  startswith p (take n s) = true -> startswith p s = true.
Proof.
  revert s n; induction p as [|a p IH]; intros s n; [reflexivity|].
  destruct n, s as [|b s]; simpl; try discriminate.
  destruct (Ascii.eqb a b); [apply IH|discriminate].
Qed.

(** Before the leftmost occurrence there is no occurrence. *)
Lemma find_take_none (sub s : string) (j : nat) :
  sub <> "" -> find sub s = Some j -> find sub (take j s) = None.
Proof.
  intros Hsub. revert j; induction s as [|x s IH]; intros j.
  - destruct j; simpl; destruct sub; try congruence; reflexivity.
  - simpl find at 1.
    destruct (startswith sub (String x s)) eqn:E.
    + intros [= <-]. simpl. destruct sub; [congruence|reflexivity].
    + destruct (find sub s) as [j'|] eqn:Ef; simpl; [|discriminate].
      intros [= <-]. simpl take.
      simpl find. 
      destruct (startswith sub (String x (take j' s))) eqn:E'.
      * apply (startswith_take sub (String x s) (S j')) in E'. congruence.
      * now rewrite (IH j' eq_refl).
Qed.

End PyCharFacts.

(** ** Further properties of the request handler *)



(** X2.  With no model loaded the answer does not depend on the picture:
    two images the imaging pipeline accepts get the same response under
    the same random draws. *)
Theorem predict_disease_fallback_ignores_image (srv : server) (g : rng)
    (req1 req2 : request) (fields1 fields2 : dict) (image1 image2 : json)
    (x1 x2 : image_batch) :
  model srv = None ->
  method req1 <> OPTIONS -> method req2 <> OPTIONS ->
  get_json req1 = Ok (JObj fields1) -> dict_lookup "image" fields1 = Some image1 ->
  get_json req2 = Ok (JObj fields2) -> dict_lookup "image" fields2 = Some image2 ->
  preprocess_image srv image1 = Ok x1 ->
  preprocess_image srv image2 = Ok x2 ->
  predict_disease srv g req1 = predict_disease srv g req2.
Proof.
  intros Hnone Hm1 Hm2 Hj1 Hi1 Hj2 Hi2 Hx1 Hx2.
  rewrite (predict_disease_try _ _ _ Hm1), (predict_disease_try _ _ _ Hm2).
  rewrite (try_block_object _ _ _ _ Hj1), (try_block_object _ _ _ _ Hj2), Hi1, Hi2.
  unfold predict_result. rewrite Hx1, Hx2. simpl.
  unfold classify. now rewrite Hnone.
Qed.

Lemma predict_disease_fallback_ignores_image_witness :
  predict_disease (demo_server None) demo_rng demo_request
  = predict_disease (demo_server None) demo_rng (post (JObj [ ("image", JStr "/9j/4AAQ") ])).
Proof.
  apply (predict_disease_fallback_ignores_image (demo_server None) demo_rng _ _
           [ ("image", JStr "iVBORw0KGgo=") ] [ ("image", JStr "/9j/4AAQ") ]
           (JStr "iVBORw0KGgo=") (JStr "/9j/4AAQ")
           [[[[ 1 # 2; 1 # 2; 1 # 2 ]]]] [[[[ 1 # 2; 1 # 2; 1 # 2 ]]]]);
    try discriminate; reflexivity.
Defined.

(** X3.  Every 200 response of a non-preflight request carries a JSON
    object whose keys are exactly the six names disease, confidence,
    severity, symptoms, treatment and prevention, each once (the order of
    the keys in the serialised body is Flask's and is not stated). *)
Theorem predict_disease_200_fields (srv : server) (g : rng) (req : request) :
  method req <> OPTIONS ->
  status (predict_disease srv g req) = 200%Z ->
  exists fields : dict,
    body (predict_disease srv g req) = Jsonify (JObj fields) /\
    map fst fields
    ≡ₚ [ "confidence"; "disease"; "prevention"; "severity"; "symptoms"; "treatment" ] /\
    (forall name : string,
        is_Some (dict_lookup name fields) <->
        name ∈ [ "confidence"; "disease"; "prevention"; "severity"; "symptoms";
                 "treatment" ]).
Proof.
  intros Hm H200.
  destruct (predict_disease_200_inv _ _ _ Hm H200)
    as (rj & image & x & label & c & key & _ & _ & _ & _ & _ & ->).
  eexists. split; [reflexivity|]. split.
  - unfold build_result. cbn [map fst].
    apply NoDup_Permutation.
    + apply (bool_decide_unpack _). vm_compute. exact I.
    + apply (bool_decide_unpack _). vm_compute. exact I.
    + intros name. rewrite !elem_of_cons, !elem_of_nil. tauto.
  - intros name. unfold build_result. cbn [dict_lookup].
    rewrite !elem_of_cons, elem_of_nil.
    repeat match goal with
           | |- context [String.eqb ?a name] =>
               destruct (String.eqb_spec a name) as [<-|?]
           end;
      try (split; [intros _; repeat (first [left; reflexivity | right])
                  | intros _; eexists; reflexivity]; fail).
    split; [intros [? Hs]; discriminate Hs | intros ?; exfalso; intuition congruence].
Qed.

Lemma predict_disease_200_fields_witness :
  exists fields : dict,
    body (predict_disease (demo_server (Some softmax_model)) demo_rng demo_request)
    = Jsonify (JObj fields) /\
    length fields = 6%nat.
Proof.
  destruct (predict_disease_200_fields (demo_server (Some softmax_model)) demo_rng
              demo_request) as (fields & Hb & Hk & _); [discriminate|reflexivity|].
  exists fields. split; [exact Hb|].
  rewrite <- (length_map fst), Hk. reflexivity.
Defined.

(** X4.  A non-preflight request that is not answered 200 is answered 400
    or 500, and the body is a JSON object with the single field 'error'
    holding a string: the fixed text for 400, the exception's message
    for 500. *)
Theorem predict_disease_error_body (srv : server) (g : rng) (req : request) :
  method req <> OPTIONS ->
  status (predict_disease srv g req) <> 200%Z ->
  exists msg : string,
    predict_disease srv g req
    = {| body := Jsonify (JObj [ ("error", JStr msg) ]);
         status := status (predict_disease srv g req);
         headers := [ ("Access-Control-Allow-Origin", "*") ] |} /\
    ((status (predict_disease srv g req) = 400%Z /\ msg = "No image provided") \/
     status (predict_disease srv g req) = 500%Z).
Proof.
  intros Hm. rewrite (predict_disease_try _ _ _ Hm). unfold try_block.
  destruct (get_json req) as [rj|e]; simpl; [|eauto].
  destruct (negb (truthy rj)); simpl; [eauto|].
  destruct (py_in "image" rj) as [present|e]; simpl; [|eauto].
  destruct present; simpl; [|eauto].
  destruct (py_getitem rj "image") as [image|e]; simpl; [|eauto].
  destruct (predict_result srv g image) as [r|e]; simpl; [congruence|eauto].
Qed.

Lemma predict_disease_error_body_witness :
  exists msg : string,
    body (predict_disease (demo_server None) demo_rng
            (post (JObj [ ("image", JInt 7) ])))
    = Jsonify (JObj [ ("error", JStr msg) ]) /\
    status (predict_disease (demo_server None) demo_rng
              (post (JObj [ ("image", JInt 7) ]))) = 500%Z.
Proof.
  destruct (predict_disease_error_body (demo_server None) demo_rng
              (post (JObj [ ("image", JInt 7) ]))) as (msg & Hr & _);
    [discriminate|discriminate|].
  exists msg. rewrite Hr. split; reflexivity.
Defined.

(** X5.  The display name never contains an underscore. *)
Theorem disease_name_no_underscore (disease_class : string) :
  PyStr.contains "_" (disease_name disease_class) = false.
Proof.
  unfold disease_name, PyStr.contains.
  rewrite PyCharFacts.replace_char.
  now rewrite PyCharFacts.subst_char_removes.
Qed.

(** X6.  The lookup key never contains the separator '___'. *)
Theorem disease_key_no_separator (disease_class key : string) :
  disease_key disease_class = Ok key ->
  PyStr.contains "___" key = false.
Proof.
  unfold PyStr.contains.
  destruct (PyStr.find "___" disease_class) as [i|] eqn:E.
  - rewrite (disease_key_segment _ _ E). cbv zeta.
    destruct (PyStr.find "___" (PyStr.drop (i + 3) disease_class)) as [j|] eqn:Ej;
      intros [= <-].
    + now rewrite (PyCharFacts.find_take_none "___" _ j ltac:(discriminate) Ej).
    + now rewrite Ej.
  - rewrite (disease_key_plain _ E). intros [= <-]. now rewrite E.
Qed.

Lemma disease_key_no_separator_witness :
  disease_key "Corn___Common_rust___early" = Ok "Common_rust" /\
  PyStr.contains "___" "Common_rust" = false.
Proof.
  split; [reflexivity|].
  apply (disease_key_no_separator "Corn___Common_rust___early"). reflexivity.
Defined.

(** The entries before the position [argmax_from] returns are strictly
    smaller than the entry there. *)
Lemma argmax_from_first (rest pre : list Q) (best_i : nat) (best : Q) :
  pre !! best_i = Some best ->
  Forall (fun x => (x < best)%Q) (take best_i pre) ->
  Forall (fun x => (x <= best)%Q) pre ->
  exists v, (pre ++ rest) !! argmax_from best_i best (length pre) rest = Some v
            /\ Forall (fun x => (x < v)%Q)
                      (take (argmax_from best_i best (length pre) rest) (pre ++ rest)).
Proof.
  revert pre best_i best.
  induction rest as [|x rest IH]; intros pre best_i best Hbest Hlt Hle; simpl.
  - exists best. rewrite app_nil_r. auto.
  - assert (Hlen : S (length pre) = length (pre ++ [x])) by (rewrite length_app; simpl; lia).
    replace (pre ++ x :: rest) with ((pre ++ [x]) ++ rest) by (now rewrite <- app_assoc).
    rewrite Hlen.
    pose proof (lookup_lt_Some _ _ _ Hbest) as Hbi.
    destruct (Qle_bool x best) eqn:E.
    + apply IH.
      * rewrite lookup_app_l; [assumption|lia].
      * rewrite take_app_le by lia. assumption.
      * apply Forall_app; split; [assumption|]. constructor; [|constructor].
        now apply Qle_bool_iff.
    + assert (Hx : (best < x)%Q).
      { apply Qnot_le_lt. intros H. apply Qle_bool_iff in H. congruence. }
      apply IH.
      * rewrite lookup_app_r by lia. now rewrite Nat.sub_diag.
      * rewrite take_app_length.
        eapply Forall_impl; [exact Hle|]. simpl. intros y Hy. lra.
      * apply Forall_app; split.
        -- eapply Forall_impl; [exact Hle|]. simpl. intros y Hy. lra.
        -- constructor; [lra|constructor].
Qed.

Lemma classify_model_ok srv g x m predictions row class_idx conf :
  model srv = Some m ->
  m x = Ok predictions ->
  predictions !! 0%nat = Some row ->
  argmax row = Ok class_idx ->
  row !! class_idx = Some conf ->
  classify srv g x
  = Ok (match class_names srv !! class_idx with
        | Some label => label
        | None => "Unknown"
        end, conf).
Proof.
  intros Hmodel Hp Hrow Hmax Hconf.
  unfold classify, py_index. rewrite Hmodel, Hp; simpl.
  rewrite Hrow; simpl. rewrite Hmax; simpl. rewrite Hconf; simpl.
  do 2 f_equal.
  destruct (Nat.ltb_spec class_idx (length (class_names srv))) as [Hlt|Hge].
  - destruct (lookup_lt_is_Some_2 _ _ Hlt) as [name Hname]. rewrite Hname.
    now apply nth_lookup_Some with (d := "Unknown") in Hname.
  - now rewrite (lookup_ge_None_2 _ _ Hge).
Qed.

(** X7.  With a model loaded whose first output row is not empty, the
    request is classified: the raw confidence is the largest entry of the
    row, the class is the label at the first position that holds it (or
    'Unknown' when the label set is shorter). *)
Theorem classify_takes_first_maximum (srv : server) (g : rng) (x : image_batch)
    (m : keras_model) (predictions : list (list Q)) (row : list Q) :
  model srv = Some m ->
  m x = Ok predictions ->
  predictions !! 0%nat = Some row ->
  row <> [] ->
  exists (class_idx : nat) (conf : Q),
    classify srv g x
    = Ok (match class_names srv !! class_idx with
          | Some label => label
          | None => "Unknown"
          end, conf) /\
    row !! class_idx = Some conf /\
    (forall j p, row !! j = Some p -> (p <= conf)%Q) /\
    (forall j p, (j < class_idx)%nat -> row !! j = Some p -> (p < conf)%Q).
Proof.
  intros Hmodel Hp Hrow Hne.
  destruct row as [|p0 rest]; [congruence|].
  set (row := p0 :: rest) in *.
  set (i := argmax_from 0 p0 1 rest).
  assert (Hmax : argmax row = Ok i) by reflexivity.
  destruct (argmax_spec _ _ Hmax) as (conf & Hconf & Hall).
  destruct (argmax_from_first rest [p0] 0 p0) as (v & Hv & Hfirst);
    [reflexivity|constructor|constructor; [lra|constructor]|].
  change ([p0] ++ rest) with row in Hv, Hfirst. change (length [p0]) with 1%nat in Hv, Hfirst.
  fold i in Hv, Hfirst. rewrite Hconf in Hv. injection Hv as <-.
  exists i, conf. repeat split.
  - exact (classify_model_ok _ _ _ _ _ _ _ _ Hmodel Hp Hrow Hmax Hconf).
  - exact Hconf.
  - intros j p Hj. rewrite Forall_lookup in Hall. exact (Hall _ _ Hj).
  - intros j p Hlt Hj. rewrite Forall_lookup in Hfirst. apply (Hfirst j).
    rewrite lookup_take_lt by lia. exact Hj.
Qed.

Lemma classify_takes_first_maximum_witness :
  exists (class_idx : nat) (conf : Q),
    [ 7 # 10; 1 # 10; 1 # 10; 1 # 20; 1 # 20 ] !! class_idx = Some conf /\
    (7 # 10 <= conf)%Q.
Proof.
  destruct (classify_takes_first_maximum (demo_server (Some softmax_model)) demo_rng
              [[[[ 1 # 2 ]]]] softmax_model
              [[ 7 # 10; 1 # 10; 1 # 10; 1 # 20; 1 # 20 ]]
              [ 7 # 10; 1 # 10; 1 # 10; 1 # 20; 1 # 20 ])
    as (i & conf & _ & Hi & Hmax & _); try reflexivity; try discriminate.
  exists i, conf. split; [exact Hi|].
  apply (Hmax 0%nat). reflexivity.
Defined.

(** ** Cold start *)

(** X8.  After a cold start that succeeded, [/health] answers 200 and
    reports [model_loaded] exactly when [load_model] returned a model. *)
Theorem health_check_after_bootstrap (pre : json -> result image_batch)
    (w : cold_start) (srv : server) :
  bootstrap pre w = Ok srv ->
  health_check srv
  = {| body := Jsonify (JObj [ ("status", JStr "healthy");
                               ("model_loaded",
                                JBool (match load_model w with
                                       | Ok _ => true
                                       | Raise _ => false
                                       end)) ]);
       status := 200; headers := [] |}.
Proof.
  unfold bootstrap.
  destruct (read_disease_info w); simpl; [|discriminate].
  destruct (download_model_files w); simpl; [|discriminate].
  intros [= <-]. unfold health_check. simpl.
  now destruct (load_model w).
Qed.

Lemma health_check_after_bootstrap_witness :
  exists srv : server,
    bootstrap demo_preprocess
      {| read_disease_info := Ok demo_table; download_model_files := Ok tt;
         load_model := Raise (Exn "OSError" "SavedModel file does not exist at: /tmp/model");
         fetch_class_names := Ok fallback_class_names |} = Ok srv /\
    body_field "model_loaded" (health_check srv) = Some (JBool false).
Proof.
  eexists. split; [reflexivity|].
  rewrite (health_check_after_bootstrap demo_preprocess
             {| read_disease_info := Ok demo_table; download_model_files := Ok tt;
                load_model := Raise (Exn "OSError" "SavedModel file does not exist at: /tmp/model");
                fetch_class_names := Ok fallback_class_names |}); reflexivity.
Defined.

Module PathFacts.
Import PyStr PyChar PyCharFacts.



End PathFacts.

(** A blob name with '..' components passes the prefix filter and is
    written inside [local_model_path]. *)
Example download_plan_parent_components :
  let name := "models/plant-disease-detector/../../model/saved_model.pb" in
  download_plan
    (Dataset.list_blobs MODEL_PATH {[ name := "blob" ]})
  = [ (name, "/tmp/models/plant-disease-detector/../../model/saved_model.pb") ] /\
  resolve "/tmp/models/plant-disease-detector/../../model/saved_model.pb"
  = [ "tmp"; "model"; "saved_model.pb" ] /\
  below_dir (resolve local_model_path)
            (resolve "/tmp/models/plant-disease-detector/../../model/saved_model.pb")
  = true.
Proof. repeat split; vm_compute; reflexivity. Qed.



(** ** Further properties of dataset preparation *)

(** Membership in a list that is written out. *)
Ltac solve_elem :=
  repeat first [ apply list_elem_of_here | apply list_elem_of_further ].

Module SplitFacts.
Import PyStr Dataset DatasetVerify.

Lemma fold_left_invariant {A B} (f : A -> B -> A) (P : A -> Prop) (all : list B) :
  (forall acc e, e ∈ all -> P acc -> P (f acc e)) ->
  forall entries acc, (forall e, e ∈ entries -> e ∈ all) -> P acc ->
                      P (fold_left f entries acc).
Proof.
  intros Hstep. induction entries as [|e entries IH]; intros acc Hsub Hacc; simpl; [assumption|].
  apply IH.
  - intros e' He'. apply Hsub. now apply list_elem_of_further.
  - apply Hstep; [apply Hsub, list_elem_of_here|assumption].
Qed.

Lemma locate_step_origin sep all acc e :
  e ∈ all ->
  train_origin sep all (fst acc) /\ val_origin sep all (snd acc) ->
  train_origin sep all (fst (locate_step sep acc e)) /\
  val_origin sep all (snd (locate_step sep acc e)).
Proof.
  destruct acc as [tr va], e as [root children]. intros He [Htr Hva]. simpl in *.
  split.
  - destruct tr as [d|]; [exact Htr|].
    destruct (find_dir "train" children) as [t|] eqn:E; [|exact Htr].
    intros p t' [= <- <-]. exists root, children. auto.
  - assert (Hpick : forall name cur,
               name ∈ ["val"; "valid"; "validation"] ->
               val_origin sep all cur ->
               val_origin sep all
                 match cur, find_dir name children with
                 | None, Some t => Some (os_path_join sep root name, t)
                 | _, _ => cur
                 end).
    { intros name cur Hname Hcur. destruct cur as [d|]; [exact Hcur|].
      destruct (find_dir name children) as [t|] eqn:E; [|exact Hcur].
      intros p t' [= <- <-]. exists root, children, name. auto. }
    apply Hpick; [solve_elem|]. apply Hpick; [solve_elem|]. apply Hpick; [solve_elem|].
    exact Hva.
Qed.

Lemma locate_origin sep (all : list (string * list tree)) :
  train_origin sep all (fst (fold_left (locate_step sep) all (None, None))) /\
  val_origin sep all (snd (fold_left (locate_step sep) all (None, None))).
Proof.
  apply (fold_left_invariant (locate_step sep)
           (fun acc => train_origin sep all (fst acc) /\ val_origin sep all (snd acc)) all).
  - intros acc e He Hacc. now apply locate_step_origin.
  - auto.
  - split; intros p t [=].
Qed.

(** Nothing is located exactly when no walked directory has a child of
    one of the four names. *)
Lemma locate_none sep (entries : list (string * list tree)) acc :
  fold_left (locate_step sep) entries acc = (None, None) <->
  acc = (None, None) /\
  Forall (fun e => forall name, name ∈ ["train"; "val"; "valid"; "validation"] ->
                                find_dir name (snd e) = None) entries.
Proof.
  revert acc; induction entries as [|[root children] entries IH]; intros acc; simpl.
  - split; [intros ->; auto|tauto].
  - rewrite IH, Forall_cons. simpl.
    assert (Hstep : locate_step sep acc (root, children) = (None, None) <->
                    acc = (None, None) /\
                    forall name, name ∈ ["train"; "val"; "valid"; "validation"] ->
                                 find_dir name children = None).
    { destruct acc as [tr va]. simpl.
      destruct tr as [d|], va as [d'|];
        try (split; [discriminate|intros [[=] _]]; fail).
      destruct (find_dir "train" children) eqn:E1, (find_dir "val" children) eqn:E2,
        (find_dir "valid" children) eqn:E3, (find_dir "validation" children) eqn:E4;
        split; try discriminate;
        try (intros [_ H];
             pose proof (H "train" ltac:(solve_elem));
             pose proof (H "val" ltac:(solve_elem));
             pose proof (H "valid" ltac:(solve_elem));
             pose proof (H "validation" ltac:(solve_elem)); congruence).
      intros _. split; [reflexivity|]. intros name Hname.
      rewrite !elem_of_cons in Hname.
      destruct Hname as [->|[->|[->|[->|Hname]]]]; try assumption. inversion Hname. }
    rewrite Hstep. tauto.
Qed.

End SplitFacts.

(** The cases of the splits [find_splits] returns. *)
Lemma find_splits_cases (sep dataset_path : string) (dataset : Dataset.tree) :
  let splits := Dataset.find_splits sep dataset_path dataset in
  (1 <= length splits <= 2)%nat /\
  forall split_name split_dir t,
    (split_name, (split_dir, t)) ∈ splits ->
    (split_name = "train" /\
     exists root children,
       (root, children) ∈ Dataset.walk sep dataset_path dataset /\
       split_dir = Dataset.os_path_join sep root "train" /\
       Dataset.find_dir "train" children = Some t) \/
    (split_name = "val" /\
     exists root children name,
       (root, children) ∈ Dataset.walk sep dataset_path dataset /\
       name ∈ ["val"; "valid"; "validation"] /\
       split_dir = Dataset.os_path_join sep root name /\
       Dataset.find_dir name children = Some t) \/
    (split_name = "all" /\ split_dir = dataset_path /\ t = dataset /\
     splits = [ ("all", (dataset_path, dataset)) ]).
Proof.
  unfold Dataset.find_splits.
  destruct (SplitFacts.locate_origin sep (Dataset.walk sep dataset_path dataset))
    as [Htr Hva].
  destruct (fold_left (Dataset.locate_step sep) (Dataset.walk sep dataset_path dataset)
              (None, None)) as [tr va].
  simpl in Htr, Hva.
  destruct tr as [[p1 t1]|], va as [[p2 t2]|]; simpl; (split; [lia|]);
    intros name dir t Hin;
    repeat (apply elem_of_cons in Hin as [Hin|Hin]); try (inversion Hin; fail);
    injection Hin as -> -> ->; eauto 10.
Qed.

Module SplitOrderFacts.
Import Dataset.


End SplitOrderFacts.

(** With 'validation', 'valid' and 'train' side by side, 'valid' is
    uploaded as the validation split, and the 'val' directory further
    down is not. *)
Example find_splits_three_way :
  map (fun split => (fst split, fst (snd split)))
      (Dataset.find_splits "/" "/data" three_way_dataset)
  = [ ("train", "/data/train"); ("val", "/data/valid") ].
Proof. vm_compute. reflexivity. Qed.


(** X11.  The whole dataset is uploaded as 'all' exactly when no
    directory the walk visits has a sub-directory called 'train', 'val',
    'valid' or 'validation'. *)
Theorem find_splits_fallback (sep dataset_path : string) (dataset : Dataset.tree) :
  Dataset.find_splits sep dataset_path dataset = [ ("all", (dataset_path, dataset)) ] <->
  Forall (fun entry =>
            forall name, name ∈ ["train"; "val"; "valid"; "validation"] ->
                         Dataset.find_dir name (snd entry) = None)
         (Dataset.walk sep dataset_path dataset).
Proof.
  pose proof (SplitFacts.locate_none sep (Dataset.walk sep dataset_path dataset) (None, None))
    as Hnone.
  unfold Dataset.find_splits.
  destruct (fold_left (Dataset.locate_step sep) (Dataset.walk sep dataset_path dataset)
              (None, None)) as [tr va].
  destruct tr as [d1|], va as [d2|]; simpl.
  - split; [discriminate|]. intros H. destruct Hnone as [_ Hn].
    specialize (Hn (conj eq_refl H)); discriminate.
  - split; [discriminate|]. intros H. destruct Hnone as [_ Hn].
    specialize (Hn (conj eq_refl H)); discriminate.
  - split; [discriminate|]. intros H. destruct Hnone as [_ Hn].
    specialize (Hn (conj eq_refl H)); discriminate.
  - split; [intros _; now apply Hnone|reflexivity].
Qed.

Module UploadFacts.
Import PyStr Dataset DatasetVerify.

Lemma fold_left_preserves {A B} (f : A -> B -> A) (P : A -> Prop) :
  (forall acc e, P acc -> P (f acc e)) ->
  forall entries acc, P acc -> P (fold_left f entries acc).
Proof.
  intros Hstep. induction entries as [|e entries IH]; intros acc Hacc; simpl; auto.
Qed.

(** Every key the upload builds has the shape [uploaded_key]. *)
Lemma gcs_path_uploaded_key (split_name relative_path : string) :
  split_name ∈ ["train"; "val"; "all"] ->
  uploaded_key (gcs_path split_name relative_path).
Proof.
  intros Hsplit. unfold uploaded_key, gcs_path, contains.
  rewrite PyCharFacts.replace_char. split.
  - now rewrite PyCharFacts.subst_char_removes.
  - exists split_name. split; [assumption|].
    rewrite !elem_of_cons in Hsplit.
    destruct Hsplit as [->|[->|[->|H]]]; [| | |inversion H].
    + change (GCS_PREFIX +:+ "/" +:+ "train" +:+ "/" +:+ relative_path)
        with ("datasets/plantvillage/train/" +:+ relative_path).
      rewrite PyCharFacts.subst_char_app. apply PyCharFacts.startswith_refl_app.
    + change (GCS_PREFIX +:+ "/" +:+ "val" +:+ "/" +:+ relative_path)
        with ("datasets/plantvillage/val/" +:+ relative_path).
      rewrite PyCharFacts.subst_char_app. apply PyCharFacts.startswith_refl_app.
    + change (GCS_PREFIX +:+ "/" +:+ "all" +:+ "/" +:+ relative_path)
        with ("datasets/plantvillage/all/" +:+ relative_path).
      rewrite PyCharFacts.subst_char_app. apply PyCharFacts.startswith_refl_app.
Qed.

Lemma extends_refl (bucket : gmap string string) : extends bucket bucket.
Proof. split; auto. Qed.

Lemma upload_file_extends sep split_name split_dir root bucket0 acc file :
  split_name ∈ ["train"; "val"; "all"] ->
  extends bucket0 (fst acc) ->
  extends bucket0 (fst (upload_file sep split_name split_dir root acc file)).
Proof.
  intros Hsplit [Hkeep Hkeys]. unfold upload_file.
  destruct (endswith_any upload_suffixes file); [|split; assumption].
  cbn [fst]. split.
  - intros key Hkey. rewrite lookup_insert_is_Some'. right. auto.
  - intros key v. rewrite lookup_insert_Some. intros [[<- _]|[_ Hv]].
    + right. now apply gcs_path_uploaded_key.
    + eauto.
Qed.

Lemma upload_split_extends sep bucket0 bucket split_name split_dir t :
  split_name ∈ ["train"; "val"; "all"] ->
  extends bucket0 bucket ->
  extends bucket0 (fst (upload_split sep bucket (split_name, (split_dir, t)))).
Proof.
  intros Hsplit Hb. unfold upload_split.
  apply (fold_left_preserves _ (fun acc => extends bucket0 (fst acc))); [|exact Hb].
  intros acc entry Hacc.
  apply (fold_left_preserves _ (fun acc => extends bucket0 (fst acc))); [|exact Hacc].
  intros acc' file Hacc'. now apply upload_file_extends.
Qed.

Lemma find_splits_names sep dataset_path dataset split :
  split ∈ find_splits sep dataset_path dataset ->
  fst split ∈ ["train"; "val"; "all"].
Proof.
  destruct split as [name [dir t]]. intros Hin.
  destruct (find_splits_cases sep dataset_path dataset) as [_ H].
  destruct (H _ _ _ Hin) as [[-> _]|[[-> _]|[-> _]]]; simpl; solve_elem.
Qed.

Lemma upload_file_count sep split_name split_dir root files acc :
  snd (fold_left (upload_file sep split_name split_dir root) files acc)
  = (snd acc + length (List.filter (endswith_any upload_suffixes) files))%nat.
Proof.
  revert acc; induction files as [|file files IH]; intros acc; [simpl; lia|].
  cbn [fold_left List.filter]. rewrite IH. unfold upload_file.
  destruct (endswith_any upload_suffixes file); cbn [fst snd length]; lia.
Qed.

Lemma upload_split_count sep bucket split_name split_dir t :
  snd (upload_split sep bucket (split_name, (split_dir, t)))
  = length (image_files sep split_dir t).
Proof.
  unfold upload_split, image_files.
  assert (G : forall entries acc,
             snd (fold_left
                    (fun acc entry =>
                       fold_left (upload_file sep split_name split_dir (fst entry))
                                 (file_names (snd entry)) acc) entries acc)
             = (snd acc
                + length (List.filter (endswith_any upload_suffixes)
                            (flat_map (fun entry => file_names (snd entry)) entries)))%nat).
  { induction entries as [|entry entries IH]; intros acc; simpl; [lia|].
    rewrite IH, upload_file_count, List.filter_app, length_app. lia. }
  now rewrite G.
Qed.

End UploadFacts.

(** X12.  [upload_to_gcs] only adds and overwrites: every object of the
    bucket is still there afterwards, and every object afterwards is an
    unchanged old one or lies below 'datasets/plantvillage/train/',
    '.../val/' or '.../all/' under a name without a backslash. *)
Theorem upload_to_gcs_extends (sep dataset_path : string) (dataset : Dataset.tree)
    (bucket : gmap string string) :
  let bucket' := fst (Dataset.upload_to_gcs sep dataset_path dataset bucket) in
  (forall key, is_Some (bucket !! key) -> is_Some (bucket' !! key)) /\
  (forall key v,
      bucket' !! key = Some v ->
      bucket !! key = Some v \/
      (PyStr.contains "\" key = false /\
       exists split,
         split ∈ ["train"; "val"; "all"] /\
         PyStr.startswith ("datasets/plantvillage/" +:+ split +:+ "/") key = true)).
Proof.
  unfold Dataset.upload_to_gcs.
  apply (SplitFacts.fold_left_invariant _
           (fun acc => DatasetVerify.extends bucket (fst acc))
           (Dataset.find_splits sep dataset_path dataset)).
  - intros acc split Hin Hacc.
    pose proof (UploadFacts.find_splits_names _ _ _ _ Hin) as Hname.
    destruct split as [name [dir t]].
    pose proof (UploadFacts.upload_split_extends sep bucket (fst acc) name dir t Hname Hacc)
      as Hext.
    now destruct (Dataset.upload_split sep (fst acc) (name, (dir, t))).
  - auto.
  - apply UploadFacts.extends_refl.
Qed.

Module UploadOriginFacts.
Import PyStr Dataset DatasetVerify.

Lemma upload_file_origin sep splits bucket0 split_name split_dir t root children acc file :
  (split_name, (split_dir, t)) ∈ splits ->
  (root, children) ∈ walk sep split_dir t ->
  file ∈ file_names children ->
  (forall key local, fst acc !! key = Some local ->
                     image_origin sep splits bucket0 key local) ->
  forall key local,
    fst (upload_file sep split_name split_dir root acc file) !! key = Some local ->
    image_origin sep splits bucket0 key local.
Proof.
  intros Hsplit Hwalk Hfile Hacc key local. unfold upload_file.
  destruct (endswith_any upload_suffixes file) eqn:Esuffix; [|apply Hacc].
  cbn [fst]. rewrite lookup_insert_Some. intros [[<- <-]|[_ Hold]]; [|now apply Hacc].
  right. exists split_name, split_dir, t, root, children, file. auto 10.
Qed.

Lemma upload_split_origin sep splits bucket0 bucket split :
  split ∈ splits ->
  (forall key local, bucket !! key = Some local ->
                     image_origin sep splits bucket0 key local) ->
  forall key local,
    fst (upload_split sep bucket split) !! key = Some local ->
    image_origin sep splits bucket0 key local.
Proof.
  destruct split as [split_name [split_dir t]]. intros Hsplit Hb. unfold upload_split.
  apply (SplitFacts.fold_left_invariant _
           (fun acc => forall key local, fst acc !! key = Some local ->
                                         image_origin sep splits bucket0 key local)
           (walk sep split_dir t)); [|auto|exact Hb].
  intros acc [root children] Hwalk Hacc. cbn [fst snd].
  apply (SplitFacts.fold_left_invariant _
           (fun acc => forall key local, fst acc !! key = Some local ->
                                         image_origin sep splits bucket0 key local)
           (file_names children)); [|auto|exact Hacc].
  intros acc' file Hfile Hacc'.
  now apply (upload_file_origin sep splits bucket0 split_name split_dir t root children).
Qed.

End UploadOriginFacts.

(** X13.  The [file_count] reported for a split is the number of files
    below the split directory whose name ends in '.jpg', '.jpeg', '.png'
    or their upper-case forms.  A file with another name is skipped: its
    round of the loop leaves the bucket and the count as they are.  So
    every object in the bucket afterwards was there before, unchanged, or
    holds a walked file of a split whose name has one of the six
    suffixes. *)
Theorem upload_to_gcs_counts (sep dataset_path : string) (dataset : Dataset.tree)
    (bucket : gmap string string) :
  snd (Dataset.upload_to_gcs sep dataset_path dataset bucket)
  = map (fun split =>
           (fst split,
            length (List.filter
                      (PyStr.endswith_any [".jpg"; ".jpeg"; ".png"; ".JPG"; ".JPEG"; ".PNG"])
                      (flat_map (fun entry => Dataset.file_names (snd entry))
                         (Dataset.walk sep (fst (snd split)) (snd (snd split)))))))
        (Dataset.find_splits sep dataset_path dataset) /\
  (forall (split_name split_dir root file : string) (acc : gmap string string * nat),
      PyStr.endswith_any [".jpg"; ".jpeg"; ".png"; ".JPG"; ".JPEG"; ".PNG"] file = false ->
      Dataset.upload_file sep split_name split_dir root acc file = acc) /\
  (forall key local : string,
      fst (Dataset.upload_to_gcs sep dataset_path dataset bucket) !! key = Some local ->
      bucket !! key = Some local \/
      exists split_name split_dir t root children file,
        (split_name, (split_dir, t)) ∈ Dataset.find_splits sep dataset_path dataset /\
        (root, children) ∈ Dataset.walk sep split_dir t /\
        file ∈ Dataset.file_names children /\
        PyStr.endswith_any [".jpg"; ".jpeg"; ".png"; ".JPG"; ".JPEG"; ".PNG"] file = true /\
        local = Dataset.os_path_join sep root file /\
        key = Dataset.gcs_path split_name
                (Dataset.os_path_relpath sep local split_dir)).
Proof.
  split; [|split].
  - unfold Dataset.upload_to_gcs.
    generalize (Dataset.find_splits sep dataset_path dataset). intros splits.
    assert (G : forall splits acc,
               snd (fold_left
                      (fun (acc : gmap string string * list (string * nat)) split =>
                         let '(b, n) := Dataset.upload_split sep (fst acc) split in
                         (b, snd acc ++ [(fst split, n)])) splits acc)
               = snd acc ++
                 map (fun split =>
                        (fst split,
                         length (DatasetVerify.image_files sep (fst (snd split))
                                                           (snd (snd split))))) splits).
    { clear. induction splits as [|[name [dir t]] splits IH]; intros acc.
      - simpl. now rewrite app_nil_r.
      - cbn [fold_left map].
        pose proof (UploadFacts.upload_split_count sep (fst acc) name dir t) as Hn.
        destruct (Dataset.upload_split sep (fst acc) (name, (dir, t))) as [b n].
        rewrite IH. cbn [fst snd] in *. subst n. now rewrite <- app_assoc. }
    rewrite G. reflexivity.
  - intros split_name split_dir root file acc Hsuffix. unfold Dataset.upload_file.
    change Dataset.upload_suffixes
      with [".jpg"; ".jpeg"; ".png"; ".JPG"; ".JPEG"; ".PNG"].
    now rewrite Hsuffix.
  - unfold Dataset.upload_to_gcs.
    change (forall key local : string,
               fst (fold_left
                      (fun (acc : gmap string string * list (string * nat)) split =>
                         let '(b, n) := Dataset.upload_split sep (fst acc) split in
                         (b, snd acc ++ [(fst split, n)]))
                      (Dataset.find_splits sep dataset_path dataset) (bucket, []))
               !! key = Some local ->
               DatasetVerify.image_origin sep
                 (Dataset.find_splits sep dataset_path dataset) bucket key local).
    apply (SplitFacts.fold_left_invariant _
             (fun acc : gmap string string * list (string * nat) =>
                forall key local, fst acc !! key = Some local ->
                  DatasetVerify.image_origin sep
                    (Dataset.find_splits sep dataset_path dataset) bucket key local)
             (Dataset.find_splits sep dataset_path dataset)); [|auto|].
    + intros acc split Hsplit Hacc.
      pose proof (UploadOriginFacts.upload_split_origin sep _ bucket (fst acc) split
                    Hsplit Hacc) as Hstep.
      destruct (Dataset.upload_split sep (fst acc) split) as [b n]. exact Hstep.
    + intros key local Hk. left. exact Hk.
Qed.

Module ManifestFacts.
Import PyStr PyChar Dataset DatasetVerify.

Lemma length_append (a b : string) :
  String.length (a +:+ b) = (String.length a + String.length b)%nat.
Proof. induction a as [|x a IH]; [reflexivity|]. rewrite PyCharFacts.append_cons. simpl. now rewrite IH. Qed.

Lemma drop_append (a b : string) (n : nat) :
  drop (String.length a + n) (a +:+ b) = drop n b.
Proof. induction a as [|x a IH]; [reflexivity|]. rewrite PyCharFacts.append_cons. simpl. exact IH. Qed.

(** A suffix of a string is a suffix of every extension to the left. *)
Lemma endswith_append (suffix a s : string) :
  endswith suffix s = true -> endswith suffix (a +:+ s) = true.
Proof.
  unfold endswith. intros H. apply andb_true_iff in H as [Hlen Heq].
  apply Nat.leb_le in Hlen. rewrite length_append.
  apply andb_true_iff. split; [apply Nat.leb_le; lia|].
  replace (String.length a + String.length s - String.length suffix)%nat
    with (String.length a + (String.length s - String.length suffix))%nat by lia.
  now rewrite drop_append.
Qed.

Lemma endswith_any_append (suffixes : list string) (a s : string) :
  endswith_any suffixes s = true -> endswith_any suffixes (a +:+ s) = true.
Proof.
  unfold endswith_any. rewrite !existsb_exists.
  intros (suffix & Hin & H). exists suffix. split; [assumption|].
  now apply endswith_append.
Qed.

(** The parts of a path that ends in a directory and a file name. *)
Lemma split_parent (path cls file : string) :
  find "/" cls = None -> find "/" file = None ->
  split "/" (path +:+ "/" +:+ cls +:+ "/" +:+ file) = split "/" path ++ [cls; file].
Proof.
  intros Hcls Hfile.
  rewrite !PyCharFacts.split_is_split_char.
  change (path +:+ "/" +:+ cls +:+ "/" +:+ file)
    with (path +:+ String "/" (cls +:+ String "/" file)).
  rewrite !PyCharFacts.split_char_app.
  now rewrite (PyCharFacts.split_char_absent _ _ Hcls), (PyCharFacts.split_char_absent _ _ Hfile).
Qed.

Lemma nth_parent {A} (l : list A) (a b d : A) :
  nth (length (l ++ [a; b]) - 2) (l ++ [a; b]) d = a.
Proof.
  rewrite length_app. simpl.
  replace (length l + 2 - 2)%nat with (length l) by lia.
  rewrite app_nth2 by lia. now rewrite Nat.sub_diag.
Qed.

(** Below the training prefix a name always has four parts or more. *)
Lemma train_parts (name : string) :
  startswith "datasets/plantvillage/train/" name = true ->
  (4 <= length (split "/" name))%nat.
Proof.
  intros H. apply PyCharFacts.startswith_app in H as [r ->].
  rewrite PyCharFacts.split_is_split_char.
  change ("datasets/plantvillage/train/" +:+ r)
    with ("datasets/plantvillage/train" +:+ String "/" r).
  rewrite PyCharFacts.split_char_app, length_app.
  pose proof (PyCharFacts.split_char_nonempty "/" r).
  destruct (split_char "/" r); [congruence|]. simpl. lia.
Qed.

Lemma csv_line_length (name : string) :
  startswith "datasets/plantvillage/train/" name = true ->
  length (csv_line name) = if endswith_any manifest_suffixes name then 1%nat else 0%nat.
Proof.
  intros H. unfold csv_line.
  destruct (endswith_any manifest_suffixes name); [|reflexivity].
  apply train_parts, Nat.leb_le in H. now rewrite H.
Qed.

Lemma list_blobs_prefix (prefix : string) (bucket : gmap string string) (name : string) :
  name ∈ list_blobs prefix bucket <->
  startswith prefix name = true /\ is_Some (bucket !! name).
Proof.
  unfold list_blobs. rewrite list_elem_of_filter, list_elem_of_In, in_map_iff.
  split.
  - intros [Hp ([k v] & <- & Hin)]. split; [assumption|].
    apply list_elem_of_In, elem_of_map_to_list in Hin. simpl. eauto.
  - intros [Hp [v Hv]]. split; [assumption|].
    exists (name, v). split; [reflexivity|].
    now apply list_elem_of_In, elem_of_map_to_list.
Qed.

End ManifestFacts.

(** X14.  When the upload falls back to the single split 'all' and the
    bucket held nothing below 'train/' or 'val/' before, [verify_upload]
    counts no file in either split and the manifest is empty, whatever
    was uploaded. *)
Theorem verify_upload_blind_to_all (sep dataset_path : string) (dataset : Dataset.tree)
    (bucket : gmap string string) :
  Dataset.find_splits sep dataset_path dataset = [ ("all", (dataset_path, dataset)) ] ->
  Dataset.list_blobs "datasets/plantvillage/train/" bucket = [] ->
  Dataset.list_blobs "datasets/plantvillage/val/" bucket = [] ->
  let bucket' := fst (Dataset.upload_to_gcs sep dataset_path dataset bucket) in
  DatasetVerify.verify_upload bucket' = [ ("train", 0%nat); ("val", 0%nat) ] /\
  Dataset.create_dataset_csv bucket' = [].
Proof.
  intros Hall Htrain Hval bucket'.
  assert (Hkeys : forall key v, bucket' !! key = Some v ->
            bucket !! key = Some v \/
            PyStr.startswith "datasets/plantvillage/all/" key = true).
  { subst bucket'. unfold Dataset.upload_to_gcs. rewrite Hall.
    cbn [fold_left].
    destruct (Dataset.upload_split sep (fst (bucket, @nil (string * nat)))
                ("all", (dataset_path, dataset))) as [b n] eqn:E.
    cbn [fst]. replace b with (fst (Dataset.upload_split sep bucket
                                      ("all", (dataset_path, dataset))))
      by (cbn [fst] in E; now rewrite E).
    unfold Dataset.upload_split.
    apply (UploadFacts.fold_left_preserves _
             (fun acc => forall key v, fst acc !! key = Some v ->
                bucket !! key = Some v \/
                PyStr.startswith "datasets/plantvillage/all/" key = true)); [|auto].
    intros acc entry Hacc.
    apply (UploadFacts.fold_left_preserves _
             (fun acc => forall key v, fst acc !! key = Some v ->
                bucket !! key = Some v \/
                PyStr.startswith "datasets/plantvillage/all/" key = true)); [|exact Hacc].
    intros acc' file Hacc'. unfold Dataset.upload_file.
    destruct (PyStr.endswith_any Dataset.upload_suffixes file); [|exact Hacc'].
    cbn [fst]. intros key v. rewrite lookup_insert_Some. intros [[<- _]|[_ Hv]]; [|eauto].
    right. unfold Dataset.gcs_path. rewrite PyCharFacts.replace_char.
    match goal with
    | |- context [PyChar.subst_char _ _ (_ +:+ "/" +:+ "all" +:+ "/" +:+ ?r)] =>
        change (Dataset.GCS_PREFIX +:+ "/" +:+ "all" +:+ "/" +:+ r)
          with ("datasets/plantvillage/all/" +:+ r)
    end.
    rewrite PyCharFacts.subst_char_app. apply PyCharFacts.startswith_refl_app. }
  assert (Hnone : forall prefix,
            Dataset.list_blobs prefix bucket = [] ->
            (forall r, PyStr.startswith prefix ("datasets/plantvillage/all/" +:+ r) = false) ->
            Dataset.list_blobs prefix bucket' = []).
  { intros prefix Hold Hdiff. apply elem_of_nil_inv. intros name Hin.
    apply ManifestFacts.list_blobs_prefix in Hin as [Hp [v Hv]].
    destruct (Hkeys _ _ Hv) as [Hb|Hnew].
    - assert (Hin : name ∈ Dataset.list_blobs prefix bucket)
        by (apply ManifestFacts.list_blobs_prefix; eauto).
      rewrite Hold in Hin. inversion Hin.
    - apply PyCharFacts.startswith_app in Hnew as [r ->]. rewrite Hdiff in Hp. discriminate. }
  unfold DatasetVerify.verify_upload, Dataset.create_dataset_csv. cbn [map].
  change (Dataset.GCS_PREFIX +:+ "/" +:+ "train" +:+ "/") with "datasets/plantvillage/train/".
  change (Dataset.GCS_PREFIX +:+ "/" +:+ "val" +:+ "/") with "datasets/plantvillage/val/".
  change (Dataset.GCS_PREFIX +:+ "/train/") with "datasets/plantvillage/train/".
  rewrite (Hnone "datasets/plantvillage/train/" Htrain) by reflexivity.
  rewrite (Hnone "datasets/plantvillage/val/" Hval) by reflexivity.
  split; reflexivity.
Qed.

(** X15.  The manifest has one row for every object below
    'datasets/plantvillage/train/' whose name ends in '.jpg', '.jpeg' or
    '.png', and no other row: the four-part check never rejects a
    name. *)
Theorem create_dataset_csv_row_count (bucket : gmap string string) :
  length (Dataset.create_dataset_csv bucket)
  = length (List.filter (PyStr.endswith_any [".jpg"; ".jpeg"; ".png"])
              (Dataset.list_blobs "datasets/plantvillage/train/" bucket)).
Proof.
  unfold Dataset.create_dataset_csv.
  change (Dataset.GCS_PREFIX +:+ "/train/") with "datasets/plantvillage/train/".
  assert (Hall : Forall (fun name => PyStr.startswith "datasets/plantvillage/train/" name = true)
                        (Dataset.list_blobs "datasets/plantvillage/train/" bucket)).
  { apply Forall_forall. intros name Hin.
    now apply ManifestFacts.list_blobs_prefix in Hin as [Hp _]. }
  induction Hall as [|name names Hname _ IH]; [reflexivity|].
  cbn [flat_map List.filter]. rewrite length_app, IH, (ManifestFacts.csv_line_length _ Hname).
  change Dataset.manifest_suffixes with [".jpg"; ".jpeg"; ".png"].
  now destruct (PyStr.endswith_any [".jpg"; ".jpeg"; ".png"] name).
Qed.

(** X16.  The class label of a manifest row is the directory the image
    lies in: the class directory for
    'datasets/plantvillage/train/<class>/<file>', and 'train' for an
    image directly below the training prefix. *)
Theorem csv_line_label (cls file : string) :
  PyStr.find "/" cls = None ->
  PyStr.find "/" file = None ->
  PyStr.endswith_any [".jpg"; ".jpeg"; ".png"] file = true ->
  Dataset.csv_line ("datasets/plantvillage/train/" +:+ cls +:+ "/" +:+ file)
  = [ "gs://kenya-agri-farmwise-ml/datasets/plantvillage/train/"
        +:+ cls +:+ "/" +:+ file +:+ "," +:+ cls ] /\
  Dataset.csv_line ("datasets/plantvillage/train/" +:+ file)
  = [ "gs://kenya-agri-farmwise-ml/datasets/plantvillage/train/" +:+ file +:+ ",train" ].
Proof.
  intros Hcls Hfile Hsuffix. split.
  - unfold Dataset.csv_line. cbv zeta.
    change ("datasets/plantvillage/train/" +:+ cls +:+ "/" +:+ file)
      with ("datasets/plantvillage/train" +:+ "/" +:+ cls +:+ "/" +:+ file).
    replace (PyStr.endswith_any Dataset.manifest_suffixes
               ("datasets/plantvillage/train" +:+ "/" +:+ cls +:+ "/" +:+ file)) with true.
    2:{ symmetry.
        change ("datasets/plantvillage/train" +:+ "/" +:+ cls +:+ "/" +:+ file)
          with ("datasets/plantvillage/train/" +:+ (cls +:+ "/" +:+ file)).
        rewrite <- PyCharFacts.append_assoc.
        change (cls +:+ "/" +:+ file) with (cls +:+ ("/" +:+ file)).
        rewrite <- PyCharFacts.append_assoc.
        now apply ManifestFacts.endswith_any_append. }
    rewrite (ManifestFacts.split_parent _ _ _ Hcls Hfile).
    rewrite ManifestFacts.nth_parent.
    rewrite length_app. cbn [length]. 
    replace (4 <=? length (PyStr.split "/" "datasets/plantvillage/train") + 2)%nat with true
      by reflexivity.
    rewrite !PyCharFacts.append_assoc. reflexivity.
  - unfold Dataset.csv_line. cbv zeta.
    replace (PyStr.endswith_any Dataset.manifest_suffixes
               ("datasets/plantvillage/train/" +:+ file)) with true
      by (symmetry; now apply ManifestFacts.endswith_any_append).
    change ("datasets/plantvillage/train/" +:+ file)
      with ("datasets/plantvillage" +:+ "/" +:+ "train" +:+ "/" +:+ file).
    rewrite (ManifestFacts.split_parent "datasets/plantvillage" "train" file eq_refl Hfile).
    rewrite ManifestFacts.nth_parent.
    rewrite !PyCharFacts.append_assoc. reflexivity.
Qed.

Module KeyFacts.
Import PyStr Dataset DatasetVerify.

(** Induction on a directory tree. *)
Lemma tree_ind' (P : tree -> Prop) :
  (forall n, P (File n)) ->
  (forall n children, Forall P children -> P (Dir n children)) ->
  forall t, P t.
Proof.
  intros HF HD. fix IH 1. intros [n|n children]; [apply HF|].
  apply HD. induction children as [|child rest IHrest]; constructor; [apply IH|exact IHrest].
Qed.

Lemma endswith_char_false (c : ascii) (s : string) :
  last_char s <> Some c -> endswith (String c "") s = false.
Proof.
  intros H. destruct (endswith (String c "") s) eqn:E; [|reflexivity].
  apply DatasetFacts.endswith_last_char in E; [|discriminate]. simpl in E. congruence.
Qed.

Lemma name_ok_spec (c : ascii) (n : string) :
  name_ok c n = true -> n <> "" /\ last_char n <> Some c.
Proof.
  unfold name_ok. destruct n as [|x n]; [discriminate|].
  destruct (last_char (String x n)) as [y|] eqn:E; [|discriminate].
  intros H. split; [discriminate|]. intros [= ->].
  rewrite Ascii.eqb_refl in H. discriminate.
Qed.

Lemma join_below (c : ascii) (split_dir root name : string) :
  below (String c "") split_dir root ->
  os_path_join (String c "") root name = root +:+ String c "" +:+ name.
Proof.
  intros (Hne & Hend & _). unfold os_path_join. rewrite Hend.
  destruct root; [congruence|reflexivity].
Qed.

Lemma below_child (c : ascii) (split_dir root name : string) :
  below (String c "") split_dir root ->
  name_ok c name = true ->
  below (String c "") split_dir (root +:+ String c "" +:+ name).
Proof.
  intros (Hne & Hend & Hroot) Hname.
  apply name_ok_spec in Hname as [Hn Hlast].
  split; [|split].
  - now apply PyStrFacts.append_nonempty_l.
  - apply endswith_char_false.
    change (root +:+ String c "" +:+ name) with (root +:+ (String c "" +:+ name)).
    rewrite <- PyCharFacts.append_assoc, DatasetFacts.last_char_app; assumption.
  - right. destruct Hroot as [->|[r ->]].
    + exists name. reflexivity.
    + exists (r +:+ String c "" +:+ name).
      now rewrite !PyCharFacts.append_assoc.
Qed.

(** Every directory the walk yields lies below the split directory. *)
Lemma walk_below (c : ascii) (split_dir : string) (t : tree) :
  forall top,
    dirs_ok c t = true ->
    below (String c "") split_dir top ->
    forall root children,
      (root, children) ∈ walk (String c "") top t ->
      below (String c "") split_dir root.
Proof.
  induction t as [n|n children IH] using tree_ind'; intros top Hok Htop root ch Hin.
  - inversion Hin.
  - simpl in Hin. apply elem_of_cons in Hin as [[= -> ->]|Hin]; [assumption|].
    apply list_elem_of_In, in_flat_map in Hin as (child & Hchild & Hin).
    apply list_elem_of_In in Hchild.
    simpl in Hok. rewrite forallb_forall in Hok.
    specialize (Hok child ltac:(now apply list_elem_of_In)).
    rewrite Forall_forall in IH. specialize (IH child Hchild).
    destruct child as [f|n' grand]; [destruct Hin|].
    apply andb_true_iff in Hok as [Hname Hok].
    apply list_elem_of_In in Hin.
    refine (IH (os_path_join (String c "") top n') Hok _ root ch Hin).
    rewrite (join_below _ _ _ _ Htop). now apply below_child.
Qed.

Lemma drop_length_append (a b : string) : drop (String.length a) (a +:+ b) = b.
Proof.
  rewrite <- (Nat.add_0_r (String.length a)). apply ManifestFacts.drop_append.
Qed.

(** Joining a file name to a walked directory and taking the path
    relative to the split directory gives the part after the split
    directory and one separator. *)
Lemma relpath_join (c : ascii) (split_dir root file : string) :
  below (String c "") split_dir root ->
  exists rel,
    os_path_join (String c "") root file = split_dir +:+ String c "" +:+ rel /\
    os_path_relpath (String c "") (os_path_join (String c "") root file) split_dir = rel.
Proof.
  intros Hroot. rewrite (join_below _ _ _ _ Hroot).
  assert (Hrel : forall rel,
             os_path_relpath (String c "") (split_dir +:+ String c "" +:+ rel) split_dir = rel).
  { intros rel. unfold os_path_relpath.
    rewrite PyCharFacts.startswith_refl_app, drop_length_append.
    change (String c "" +:+ rel) with (String c rel). simpl.
    now rewrite Ascii.eqb_refl. }
  destruct Hroot as (_ & _ & [->|[r ->]]).
  - exists file. split; [reflexivity|apply Hrel].
  - exists (r +:+ String c "" +:+ file).
    rewrite !PyCharFacts.append_assoc. split; [reflexivity|].
    apply (Hrel (r +:+ String c "" +:+ file)).
Qed.

End KeyFacts.

(** X17.  The key scheme.  For a split directory whose sub-directories
    have ordinary names (not empty, not ending in the separator), every
    object [upload_split] writes holds a local file
    [split_dir + sep + rel] under the key
    ['datasets/plantvillage/<split>/' + rel] with backslashes turned into
    '/', and every image file met by the walk has its key in the bucket
    afterwards. *)
Theorem upload_split_key_scheme (c : ascii) (bucket : gmap string string)
    (split_name split_dir : string) (t : Dataset.tree) :
  split_dir <> "" ->
  PyStr.endswith (String c "") split_dir = false ->
  DatasetVerify.dirs_ok c t = true ->
  let sep := String c "" in
  let bucket' := fst (Dataset.upload_split sep bucket (split_name, (split_dir, t))) in
  (forall key local_path,
      bucket' !! key = Some local_path ->
      bucket !! key = Some local_path \/
      exists rel,
        local_path = split_dir +:+ sep +:+ rel /\
        key = PyStr.replace "\" "/"
                ("datasets/plantvillage/" +:+ split_name +:+ "/" +:+ rel)) /\
  (forall root children file,
      (root, children) ∈ Dataset.walk sep split_dir t ->
      file ∈ Dataset.file_names children ->
      PyStr.endswith_any Dataset.upload_suffixes file = true ->
      exists rel,
        Dataset.os_path_join sep root file = split_dir +:+ sep +:+ rel /\
        is_Some (bucket' !! PyStr.replace "\" "/"
                              ("datasets/plantvillage/" +:+ split_name +:+ "/" +:+ rel))).
Proof.
  intros Hne Hend Hok sep bucket'.
  assert (Htop : DatasetVerify.below sep split_dir split_dir) by (repeat split; auto).
  pose proof (KeyFacts.walk_below c split_dir t split_dir Hok Htop) as Hwalk.
  subst bucket'. unfold Dataset.upload_split.
  split.
  - apply (SplitFacts.fold_left_invariant _
             (fun acc => forall key local_path,
                  fst acc !! key = Some local_path ->
                  bucket !! key = Some local_path \/
                  exists rel,
                    local_path = split_dir +:+ sep +:+ rel /\
                    key = PyStr.replace "\" "/"
                            ("datasets/plantvillage/" +:+ split_name +:+ "/" +:+ rel))
             (Dataset.walk sep split_dir t)); [|auto|auto].
    intros acc [root children] Hin Hacc.
    apply (UploadFacts.fold_left_preserves _
             (fun acc => forall key local_path,
                  fst acc !! key = Some local_path ->
                  bucket !! key = Some local_path \/
                  exists rel,
                    local_path = split_dir +:+ sep +:+ rel /\
                    key = PyStr.replace "\" "/"
                            ("datasets/plantvillage/" +:+ split_name +:+ "/" +:+ rel)));
      [|exact Hacc].
    intros acc' file Hacc'. unfold Dataset.upload_file. cbn [fst].
    destruct (PyStr.endswith_any Dataset.upload_suffixes file); [|exact Hacc'].
    cbn [fst]. intros key local_path. rewrite lookup_insert_Some.
    intros [[<- <-]|[_ Hv]]; [|eauto].
    right. destruct (KeyFacts.relpath_join c split_dir root file (Hwalk _ _ Hin))
      as (rel & Hjoin & Hrel).
    exists rel. fold sep in Hjoin, Hrel. rewrite Hrel. split; [exact Hjoin|reflexivity].
  - intros root children file Hin Hfile Himg.
    destruct (KeyFacts.relpath_join c split_dir root file (Hwalk _ _ Hin))
      as (rel & Hjoin & Hrel).
    fold sep in Hjoin, Hrel. exists rel. split; [exact Hjoin|].
    set (key := PyStr.replace "\" "/"
                  ("datasets/plantvillage/" +:+ split_name +:+ "/" +:+ rel)).
    (* once written, a key stays *)
    assert (Hfile_keep : forall r files acc,
               is_Some (fst acc !! key) ->
               is_Some (fst (fold_left (Dataset.upload_file sep split_name split_dir r)
                                       files acc) !! key)).
    { intros r files acc. apply (UploadFacts.fold_left_preserves _
                                   (fun acc => is_Some (fst acc !! key))).
      intros acc' f Hacc'. unfold Dataset.upload_file.
      destruct (PyStr.endswith_any Dataset.upload_suffixes f); [|exact Hacc'].
      cbn [fst]. rewrite lookup_insert_is_Some'. now right. }
    assert (Hfile_set : forall files acc,
               file ∈ files ->
               is_Some (fst (fold_left (Dataset.upload_file sep split_name split_dir root)
                                       files acc) !! key)).
    { induction files as [|f files IHf]; intros acc Hf; [inversion Hf|].
      cbn [fold_left]. apply elem_of_cons in Hf as [<-|Hf]; [|now apply IHf].
      apply Hfile_keep. unfold Dataset.upload_file. rewrite Himg. cbn [fst].
      rewrite Hrel. rewrite lookup_insert_is_Some'. now left. }
    revert Hin. generalize (bucket, 0%nat).
    induction (Dataset.walk sep split_dir t) as [|entry entries IHe]; intros acc Hin;
      [inversion Hin|].
    cbn [fold_left]. apply elem_of_cons in Hin as [<-|Hin]; [|now apply IHe].
    cbn [fst snd].
    apply (UploadFacts.fold_left_preserves _ (fun acc => is_Some (fst acc !! key))).
    + intros acc' e Hacc'. now apply Hfile_keep.
    + now apply Hfile_set.
Qed.

(** ** Training labels and deployment *)

Module TrainFacts.
Import PyStr TrainData.

Lemma where_equal_absent (names : list string) (class_name : string) (i : nat) :
  class_name ∉ names -> where_equal i names class_name = [].
Proof.
  revert i; induction names as [|n names IH]; intros i Hnot; [reflexivity|].
  apply not_elem_of_cons in Hnot as [Hne Hnot]. simpl.
  destruct (String.eqb_spec n class_name) as [->|_]; [congruence|]. now apply IH.
Qed.

(** The first position [where_equal] reports holds the name, and no
    earlier position does. *)
Lemma where_equal_head (names : list string) (class_name : string) (i j : nat)
    (rest : list nat) :
  where_equal i names class_name = j :: rest ->
  exists k, j = (i + k)%nat /\ names !! k = Some class_name /\
            forall k', (k' < k)%nat -> names !! k' <> Some class_name.
Proof.
  revert i; induction names as [|n names IH]; intros i H; [discriminate|].
  simpl in H. destruct (String.eqb_spec n class_name) as [->|Hne].
  - injection H as <- _. exists 0%nat. repeat split; [lia|]. intros k' Hk'. lia.
  - apply IH in H as (k & -> & Hk & Hfirst). exists (S k). repeat split; [lia|assumption|].
    intros [|k'] Hlt; simpl; [congruence|]. apply Hfirst. lia.
Qed.

Lemma one_hot_length (label depth : nat) : length (one_hot label depth) = depth.
Proof. unfold one_hot. now rewrite length_map, length_seq. Qed.

Lemma one_hot_lookup (label depth j : nat) :
  (j < depth)%nat ->
  one_hot label depth !! j = Some (if (j =? label)%nat then 1%Q else 0%Q).
Proof.
  intros Hj. unfold one_hot.
  change (map ?f ?l) with (f <$> l). rewrite list_lookup_fmap.
  rewrite lookup_seq_lt by assumption. reflexivity.
Qed.

Lemma lookup_parent {A} (l : list A) (a b : A) :
  (l ++ [a; b]) !! (length (l ++ [a; b]) - 2)%nat = Some a.
Proof.
  rewrite length_app. simpl.
  replace (length l + 2 - 2)%nat with (length l + 0)%nat by lia.
  now rewrite lookup_app_r, Nat.add_0_r, Nat.sub_diag by lia.
Qed.

(** The label of a file in a class directory is decided by the
    directory name alone. *)
Lemma parse_label_directory (data_path class_name file : string) :
  find "/" class_name = None ->
  find "/" file = None ->
  parse_label (data_path +:+ "/" +:+ class_name +:+ "/" +:+ file)
  = match where_equal 0 CLASS_NAMES class_name with
    | i :: _ => Ok (one_hot i NUM_CLASSES)
    | [] => Raise (InvalidArgumentError "slice index 0 of dimension 0 out of bounds.")
    end.
Proof.
  intros Hc Hf. unfold parse_label. cbv zeta.
  rewrite (ManifestFacts.split_parent _ _ _ Hc Hf).
  assert (Hlen : (2 <=? length (split "/" data_path ++ [class_name; file]))%nat = true).
  { apply Nat.leb_le. rewrite length_app. simpl. lia. }
  rewrite Hlen. unfold py_index at 1. rewrite lookup_parent.
  unfold mbind, result_bind.
  destruct (where_equal 0 CLASS_NAMES class_name); reflexivity.
Qed.

(** No class name contains a '/', and each one is reported first at its
    own position. *)
Lemma class_names_checked :
  forallb (fun i =>
             match CLASS_NAMES !! i with
             | Some c =>
                 match find "/" c, where_equal 0 CLASS_NAMES c with
                 | None, j :: _ => (j =? i)%nat
                 | _, _ => false
                 end
             | None => false
             end) (seq 0 NUM_CLASSES) = true.
Proof. vm_compute. reflexivity. Qed.

Lemma class_names_lookup (i : nat) (c : string) :
  CLASS_NAMES !! i = Some c ->
  find "/" c = None /\ exists rest, where_equal 0 CLASS_NAMES c = i :: rest.
Proof.
  intros Hi. pose proof class_names_checked as H.
  rewrite forallb_forall in H.
  assert (Hlt : (i < NUM_CLASSES)%nat) by (eapply lookup_lt_Some, Hi).
  specialize (H i ltac:(apply in_seq; lia)). rewrite Hi in H.
  destruct (find "/" c); [discriminate|].
  destruct (where_equal 0 CLASS_NAMES c) as [|j rest]; [discriminate|].
  apply Nat.eqb_eq in H as ->. eauto.
Qed.

End TrainFacts.

(** X18.  Training labels.  For an image file in the directory of the
    i-th class name, [parse_image] builds the one-hot vector of length 38
    with the 1 at position i, whatever comes before the class directory
    in the path. *)
Theorem parse_label_one_hot (data_path file : string) (i : nat) (c : string) :
  TrainData.CLASS_NAMES !! i = Some c ->
  PyStr.find "/" file = None ->
  exists v : list Q,
    TrainData.parse_label (data_path +:+ "/" +:+ c +:+ "/" +:+ file) = Ok v /\
    length v = 38%nat /\
    v !! i = Some 1%Q /\
    (forall j, j <> i -> (j < 38)%nat -> v !! j = Some 0%Q).
Proof.
  intros Hi Hfile.
  destruct (TrainFacts.class_names_lookup _ _ Hi) as (Hc & rest & Hw).
  rewrite (TrainFacts.parse_label_directory _ _ _ Hc Hfile), Hw.
  assert (Hlt : (i < 38)%nat) by (eapply (lookup_lt_Some TrainData.CLASS_NAMES), Hi).
  eexists. split; [reflexivity|]. split; [apply TrainFacts.one_hot_length|]. split.
  - rewrite TrainFacts.one_hot_lookup by exact Hlt. now rewrite Nat.eqb_refl.
  - intros j Hne Hj. rewrite TrainFacts.one_hot_lookup by exact Hj.
    apply Nat.eqb_neq in Hne. now rewrite Hne.
Qed.

Lemma parse_label_one_hot_witness :
  exists v : list Q,
    TrainData.parse_label
      "gs://kenya-agri-farmwise-ml/datasets/plantvillage/train/Apple___Black_rot/img1.jpg"
    = Ok v /\
    v !! 1%nat = Some 1%Q /\ v !! 0%nat = Some 0%Q.
Proof.
  destruct (parse_label_one_hot "gs://kenya-agri-farmwise-ml/datasets/plantvillage/train"
              "img1.jpg" 1 "Apple___Black_rot" eq_refl eq_refl)
    as (v & Hv & _ & H1 & H0).
  exists v. split; [exact Hv|]. split; [exact H1|]. apply H0; lia.
Defined.

(** X19.  An image in a directory whose name is not one of the 38 class
    names makes [parse_image] fail: the directory is not skipped. *)
Theorem parse_label_unknown_directory (data_path class_name file : string) :
  class_name ∉ TrainData.CLASS_NAMES ->
  PyStr.find "/" class_name = None ->
  PyStr.find "/" file = None ->
  exists e : exn,
    TrainData.parse_label (data_path +:+ "/" +:+ class_name +:+ "/" +:+ file) = Raise e.
Proof.
  intros Hnot Hc Hf.
  rewrite (TrainFacts.parse_label_directory _ _ _ Hc Hf).
  rewrite (TrainFacts.where_equal_absent _ _ 0 Hnot). eauto.
Qed.

Lemma parse_label_unknown_directory_witness :
  exists e : exn,
    TrainData.parse_label
      "gs://kenya-agri-farmwise-ml/datasets/plantvillage/train/Corn___Common_rust/img1.jpg"
    = Raise e.
Proof.
  apply (parse_label_unknown_directory
           "gs://kenya-agri-farmwise-ml/datasets/plantvillage/train"
           "Corn___Common_rust" "img1.jpg"); try reflexivity.
  intros Hin. apply list_elem_of_In in Hin. vm_compute in Hin.
  repeat (destruct Hin as [Hin|Hin]; [discriminate|]). exact Hin.
Defined.

(** X20.  Deployment and cold start.  Every object the upload loop of the
    deployment script writes has a name below
    'models/plant-disease-detector/'; the
    service's cold start therefore lists it under [MODEL_PATH] and, unless
    the name ends in '/', writes it to '/tmp/' plus that name.  Objects
    the script does not write stay as they were. *)
Theorem upload_model_is_downloaded (sep : string) (saved_model : Dataset.tree)
    (bucket : gmap string string) :
  let bucket' := Deploy.upload_model sep saved_model bucket in
  (forall key, is_Some (bucket !! key) -> is_Some (bucket' !! key)) /\
  (forall key v,
      bucket' !! key = Some v ->
      bucket !! key = Some v \/
      (PyStr.startswith "models/plant-disease-detector/" key = true /\
       key ∈ Dataset.list_blobs MODEL_PATH bucket' /\
       (PyStr.endswith "/" key = false ->
        (key, "/tmp/" +:+ key) ∈ download_plan (Dataset.list_blobs MODEL_PATH bucket')))).
Proof.
  intros bucket'.
  assert (Hinv : (forall key, is_Some (bucket !! key) -> is_Some (bucket' !! key)) /\
                 (forall key v, bucket' !! key = Some v ->
                    bucket !! key = Some v \/
                    PyStr.startswith "models/plant-disease-detector/" key = true)).
  { subst bucket'. unfold Deploy.upload_model.
    apply (UploadFacts.fold_left_preserves _
             (fun b => (forall key, is_Some (bucket !! key) -> is_Some (b !! key)) /\
                       (forall key v, b !! key = Some v ->
                          bucket !! key = Some v \/
                          PyStr.startswith "models/plant-disease-detector/" key = true)));
      [|auto].
    intros b entry Hb.
    apply (UploadFacts.fold_left_preserves _
             (fun b => (forall key, is_Some (bucket !! key) -> is_Some (b !! key)) /\
                       (forall key v, b !! key = Some v ->
                          bucket !! key = Some v \/
                          PyStr.startswith "models/plant-disease-detector/" key = true)));
      [|exact Hb].
    intros b' file [Hkeep Hkeys]. split.
    - intros key Hkey. rewrite lookup_insert_is_Some'. right. auto.
    - intros key v. rewrite lookup_insert_Some. intros [[<- _]|[_ Hv]]; [|eauto].
      right. unfold Deploy.blob_path. apply PyCharFacts.startswith_refl_app. }
  destruct Hinv as [Hkeep Hkeys]. split; [exact Hkeep|].
  intros key v Hv. destruct (Hkeys _ _ Hv) as [Hold|Hnew]; [now left|right].
  assert (Hlisted : key ∈ Dataset.list_blobs MODEL_PATH bucket').
  { apply ManifestFacts.list_blobs_prefix. split; [|eauto].
    apply PyCharFacts.startswith_app in Hnew as [r ->]. reflexivity. }
  split; [exact Hnew|]. split; [exact Hlisted|].
  intros Hslash. unfold download_plan. apply list_elem_of_In, in_flat_map.
  exists key. split; [now apply list_elem_of_In|]. rewrite Hslash. left.
  apply PyCharFacts.startswith_app in Hnew as [r ->]. reflexivity.
Qed.

Lemma upload_model_is_downloaded_witness :
  ("models/plant-disease-detector/saved_model.pb",
   "/tmp/models/plant-disease-detector/saved_model.pb")
  ∈ download_plan
      (Dataset.list_blobs MODEL_PATH
         (Deploy.upload_model "/"
            (Dataset.Dir "pretrained_plant_model" [ Dataset.File "saved_model.pb" ]) ∅)).
Proof.
  destruct (upload_model_is_downloaded "/"
              (Dataset.Dir "pretrained_plant_model" [ Dataset.File "saved_model.pb" ]) ∅)
    as [_ H].
  destruct (H "models/plant-disease-detector/saved_model.pb"
              "pretrained_plant_model/saved_model.pb") as [Hold|(_ & _ & Hplan)].
  - vm_compute. reflexivity.
  - vm_compute in Hold. discriminate.
  - apply Hplan. reflexivity.
Defined.

(** ** The further properties on sample inputs *)


Lemma upload_to_gcs_counts_witness :
  snd (Dataset.upload_to_gcs "/" "/data" train_directory ∅) = [ ("all", 1%nat) ] /\
  Dataset.upload_file "/" "all" "/data" "/data/Tomato___healthy" (∅, 1%nat) "notes.txt"
  = (∅, 1%nat).
Proof.
  destruct (upload_to_gcs_counts "/" "/data" train_directory ∅) as (Hcount & Hskip & _).
  split.
  - rewrite Hcount. vm_compute. reflexivity.
  - apply Hskip. reflexivity.
Defined.

Lemma find_splits_fallback_witness :
  Dataset.find_splits "/" "/data" flat_dataset = [ ("all", ("/data", flat_dataset)) ].
Proof.
  apply find_splits_fallback.
  let l := eval vm_compute in (Dataset.walk "/" "/data" flat_dataset) in
  change (Dataset.walk "/" "/data" flat_dataset) with l.
  repeat constructor; intros name Hname; rewrite !elem_of_cons in Hname;
    destruct Hname as [->|[->|[->|[->|Hname]]]]; try reflexivity; inversion Hname.
Defined.

Lemma upload_to_gcs_extends_witness :
  is_Some (fst (Dataset.upload_to_gcs "/" "/data" demo_dataset
                  {[ "models/plant-disease-detector/class_names.json" := "labels" ]})
           !! "models/plant-disease-detector/class_names.json").
Proof.
  apply (upload_to_gcs_extends "/" "/data" demo_dataset
           {[ "models/plant-disease-detector/class_names.json" := "labels" ]}).
  vm_compute. eauto.
Defined.

Lemma verify_upload_blind_to_all_witness :
  snd (Dataset.upload_to_gcs "/" "/data" flat_dataset ∅) = [ ("all", 2%nat) ] /\
  DatasetVerify.verify_upload (fst (Dataset.upload_to_gcs "/" "/data" flat_dataset ∅))
  = [ ("train", 0%nat); ("val", 0%nat) ] /\
  Dataset.create_dataset_csv (fst (Dataset.upload_to_gcs "/" "/data" flat_dataset ∅)) = [].
Proof.
  split; [vm_compute; reflexivity|].
  apply (verify_upload_blind_to_all "/" "/data" flat_dataset ∅);
    vm_compute; reflexivity.
Defined.

Lemma csv_line_label_witness :
  Dataset.csv_line "datasets/plantvillage/train/Tomato___healthy/leaf2.jpg"
  = [ "gs://kenya-agri-farmwise-ml/datasets/plantvillage/train/Tomato___healthy/leaf2.jpg,Tomato___healthy" ] /\
  Dataset.csv_line "datasets/plantvillage/train/leaf2.jpg"
  = [ "gs://kenya-agri-farmwise-ml/datasets/plantvillage/train/leaf2.jpg,train" ].
Proof.
  apply (csv_line_label "Tomato___healthy" "leaf2.jpg"); reflexivity.
Defined.

Lemma upload_split_key_scheme_witness :
  is_Some (fst (Dataset.upload_split "/" ∅ ("train", ("/data/train", train_directory)))
           !! "datasets/plantvillage/train/Tomato___healthy/leaf1.JPG").
Proof.
  destruct (upload_split_key_scheme "/"%char ∅ "train" "/data/train" train_directory)
    as [_ H]; [discriminate|reflexivity|reflexivity|].
  destruct (H "/data/train/Tomato___healthy"
              [ Dataset.File "leaf1.JPG"; Dataset.File "notes.txt" ] "leaf1.JPG")
    as (rel & Hjoin & Hkey).
  - vm_compute. apply list_elem_of_further, list_elem_of_here.
  - vm_compute. apply list_elem_of_here.
  - reflexivity.
  - vm_compute in Hjoin. injection Hjoin as <-. exact Hkey.
Defined.

(** ** The guard and the table *)

(** X21.  Every body with a false truth value ([None], [false], 0, 0.0,
    the empty string, list or object) is answered 400 with the fixed
    message, before anything is looked up in it. *)
Theorem predict_disease_falsy_body (srv : server) (g : rng) (req : request)
    (request_json : json) :
  method req <> OPTIONS ->
  get_json req = Ok request_json ->
  truthy request_json = false ->
  predict_disease srv g req
  = {| body := Jsonify (JObj [ ("error", JStr "No image provided") ]);
       status := 400; headers := [ ("Access-Control-Allow-Origin", "*") ] |}.
Proof.
  intros Hm Hj Hfalsy. rewrite (predict_disease_try _ _ _ Hm).
  unfold try_block. rewrite Hj. simpl. now rewrite Hfalsy.
Qed.

Lemma predict_disease_falsy_body_witness :
  status (predict_disease (demo_server None) demo_rng (post (JObj []))) = 400%Z /\
  status (predict_disease (demo_server None) demo_rng (post (JInt 0))) = 400%Z.
Proof.
  rewrite (predict_disease_falsy_body (demo_server None) demo_rng (post (JObj [])) (JObj []));
    try reflexivity; try discriminate.
  rewrite (predict_disease_falsy_body (demo_server None) demo_rng (post (JInt 0)) (JInt 0));
    try reflexivity; try discriminate.
  split; reflexivity.
Defined.

(** X22.  The guard tests the presence of the key, not its value: an
    object body that has an 'image' entry, whatever it holds, is never
    answered 400; its value goes to [preprocess_image], and an exception
    there gives 500 with that exception's message. *)
Theorem predict_disease_key_presence (srv : server) (g : rng) (req : request)
    (fields : dict) (image : json) :
  method req <> OPTIONS ->
  get_json req = Ok (JObj fields) ->
  dict_lookup "image" fields = Some image ->
  status (predict_disease srv g req) <> 400%Z /\
  (forall e, preprocess_image srv image = Raise e ->
             predict_disease srv g req
             = {| body := Jsonify (JObj [ ("error", JStr (str e)) ]);
                  status := 500; headers := [ ("Access-Control-Allow-Origin", "*") ] |}).
Proof.
  intros Hm Hj Hi.
  rewrite (predict_disease_try _ _ _ Hm), (try_block_object _ _ _ _ Hj), Hi.
  split.
  - destruct (predict_result srv g image); simpl; discriminate.
  - intros e He. unfold predict_result. now rewrite He.
Qed.

Lemma predict_disease_key_presence_witness :
  status (predict_disease (demo_server None) demo_rng (post (JObj [ ("image", JNull) ])))
  = 500%Z.
Proof.
  destruct (predict_disease_key_presence (demo_server None) demo_rng
              (post (JObj [ ("image", JNull) ])) [ ("image", JNull) ] JNull
              ltac:(discriminate) eq_refl eq_refl) as [_ H].
  now rewrite (H _ eq_refl).
Defined.

(** X23.  A table entry replaces the generic record as a whole: the
    fields it lacks are not taken from the generic record but filled
    with the display name, 'Medium' and empty lists. *)
Theorem predict_disease_partial_record (srv : server) (g : rng) (req : request)
    (fields : dict) (image : json) (x : image_batch)
    (label : string) (conf : Q) (key : string) (record : dict) :
  method req <> OPTIONS ->
  get_json req = Ok (JObj fields) ->
  dict_lookup "image" fields = Some image ->
  preprocess_image srv image = Ok x ->
  classify srv g x = Ok (label, conf) ->
  disease_key label = Ok key ->
  DISEASE_INFO srv !! key = Some record ->
  let resp := predict_disease srv g req in
  status resp = 200%Z /\
  body_field "disease" resp
  = Some (match dict_lookup "name" record with
          | Some v => v
          | None => JStr (disease_name label)
          end) /\
  body_field "severity" resp
  = Some (match dict_lookup "severity" record with Some v => v | None => JStr "Medium" end) /\
  body_field "symptoms" resp
  = Some (match dict_lookup "symptoms" record with Some v => v | None => JArr [] end) /\
  body_field "treatment" resp
  = Some (match dict_lookup "treatment" record with Some v => v | None => JArr [] end) /\
  body_field "prevention" resp
  = Some (match dict_lookup "prevention" record with Some v => v | None => JArr [] end).
Proof.
  intros Hm Hj Hi Hx Hc Hk Hrec resp. subst resp.
  rewrite (predict_disease_ok _ _ _ _ _ _ _ _ _ Hm Hj Hi Hx Hc Hk).
  unfold care_record. rewrite Hrec. repeat split.
Qed.

Lemma predict_disease_partial_record_witness :
  let srv := {| DISEASE_INFO := {[ "Late_blight" := [ ("severity", JStr "High") ] ]};
                model := Some softmax_model;
                class_names := fallback_class_names;
                preprocess_image := demo_preprocess |} in
  body_field "severity" (predict_disease srv demo_rng demo_request) = Some (JStr "High") /\
  body_field "symptoms" (predict_disease srv demo_rng demo_request) = Some (JArr []) /\
  body_field "disease" (predict_disease srv demo_rng demo_request)
  = Some (JStr "Tomato - Late blight").
Proof.
  intros srv.
  destruct (predict_disease_partial_record srv demo_rng demo_request
              [ ("image", JStr "iVBORw0KGgo=") ] (JStr "iVBORw0KGgo=")
              [[[[ 1 # 2; 1 # 2; 1 # 2 ]]]] "Tomato___Late_blight" (7 # 10) "Late_blight"
              [ ("severity", JStr "High") ])
    as (_ & Hd & Hs & Hy & _); try reflexivity; try discriminate.
  rewrite Hd, Hs, Hy. repeat split.
Defined.
